(** * Context.ai backend: a shallow embedding of [backend/main.py]

    The backend is a FastAPI process with two endpoints.  [POST /upload/]
    saves the uploaded file, loads it with a PDF or DOCX loader, splits it
    with a semantic chunker and adds the chunks to a Chroma vector store.
    [POST /chat/] retrieves the three nearest chunks for a question, fills
    a prompt template and asks a hosted language model.

    The handlers are embedded as functions in a state-and-exception monad
    over the process state.  The third-party components the handlers call
    (loaders, chunker, vector store, language model, disk) are an
    interface, [Externals]; every call through it is logged, so that
    statements about which calls a request makes, with which arguments and
    how often, can be made about the handlers themselves. *)

From Stdlib Require Import Ascii String QArith Qabs Qminmax.
From stdpp Require Import gmap strings list fin_maps.

Local Open Scope string_scope.
Local Open Scope list_scope.

(** ** Python values *)

(** The line feed, written [\n] in the source. *)
Definition LF : string := String (Ascii.ascii_of_nat 10) EmptyString.

(** The double quote character, as it occurs inside the prompt template. *)
Definition DQ : string := String (Ascii.ascii_of_nat 34) EmptyString.

(** [sep.join(parts)] *)
Fixpoint join (sep : string) (parts : list string) : string :=
  match parts with
  | [] => EmptyString
  | [p] => p
  | p :: rest => p ++ sep ++ join sep rest
  end.

(** [s.startswith(prefix)] *)
Fixpoint startswith (s prefix : string) : bool :=
  match prefix, s with
  | EmptyString, _ => true
  | String _ _, EmptyString => false
  | String a prefix', String b s' => if Ascii.eqb a b then startswith s' prefix' else false
  end.

(** [s.endswith(suffix)]: [s] is [suffix], or the tail of [s] ends with it. *)
Fixpoint endswith (s suffix : string) : bool :=
  if String.eqb s suffix then true
  else match s with
       | EmptyString => false
       | String _ s' => endswith s' suffix
       end.

(** [bool(s)] of a Python string: the empty string is falsy. *)
Definition truthy (s : string) : bool :=
  match s with EmptyString => false | String _ _ => true end.

(** [os.path.join(a, b)] on a POSIX system: an absolute [b] discards [a]. *)
Definition os_path_join (a b : string) : string :=
  if startswith b "/" then b
  else if negb (truthy a) || endswith a "/" then a ++ b
  else a ++ "/" ++ b.

(** A raised exception: its class and what [str(e)] gives. *)
Record Exn := { exn_class : string; exn_str : string }.

(** How a call ends: it returns a value or raises. *)
Inductive Outcome (A : Type) : Type :=
| Returned (a : A)
| Raised (e : Exn).
Arguments Returned {A} a.
Arguments Raised {A} e.

(** ** Data model *)

Inductive MetaValue := MStr (s : string) | MInt (z : Z).

(** A LangChain [Document]: text and a metadata dict. *)
Record Document := { page_content : string; metadata : gmap string MetaValue }.

(** Starlette's [UploadFile]: the client's file name and the file body. *)
Record UploadFile := { filename : string; file : list Byte.byte }.

(** [class QueryRequest(BaseModel)] *)
Record QueryRequest := { question : string }.

Record HuggingFaceEmbeddings := { model_name : string }.

Record SemanticChunker :=
  { embeddings : HuggingFaceEmbeddings; breakpoint_threshold_type : string }.

Record ChatPerplexity := { model : string; temperature : Q }.

(** The Chroma handle: where it persists, the embedder it was built with
    and the persisted collection. *)
Record Chroma (Coll : Type) :=
  { persist_directory : string;
    chroma_embedding_function : HuggingFaceEmbeddings;
    collection : Coll }.
Arguments persist_directory {Coll} c.
Arguments chroma_embedding_function {Coll} c.
Arguments collection {Coll} c.

(** The files on disk, by path.  The key is the path string as the
    program passed it to [open]: two strings that the file system
    resolves to one file (a name with [./] or [../] in it) are two keys
    here, so nothing below speaks about which directory a path lies in. *)
Abbreviation Disk := (gmap string (list Byte.byte)).

(** [os.environ] *)
Abbreviation Environ := (gmap string string).

(** What [open(path, "wb")] followed by [shutil.copyfileobj] did: the whole
    body was written, or an exception was raised, either by [open] (nothing
    written) or during the copy (the file holds what was written so far). *)
Inductive SaveResult :=
| Saved
| SaveFailed (e : Exn) (written : option (list Byte.byte)).

Inductive LoaderKind := PyPDFLoader | Docx2txtLoader.

(** The calls a handler makes to the components outside [main.py]. *)
Inductive Call :=
| CallOpenWrite (path : string) (body : list Byte.byte)
| CallLoad (loader : LoaderKind) (path : string)
| CallSplitDocuments (text_splitter : SemanticChunker) (documents : list Document)
| CallAddDocuments (embedder : HuggingFaceEmbeddings) (documents : list Document)
| CallSimilaritySearch (embedder : HuggingFaceEmbeddings) (query : string) (k : nat)
| CallInvoke (llm : ChatPerplexity) (prompt_text : string).

(** ** The components outside [main.py]

    [E] is the state of the outside world (free disk space, provider
    availability, ...): every call may read and change it, which makes the
    outcome of a call depend on when it is made.  [Coll] is the content of
    the Chroma collection; the files in which Chroma keeps it under
    [vector_db/] are part of [Coll], not of the disk of the handlers. *)
Class Externals (E Coll : Type) := {
  load_dotenv : E -> Environ -> Environ;
  os_makedirs : E -> string -> Outcome unit * E;
  load_embedding_model : E -> HuggingFaceEmbeddings -> Outcome unit * E;
  open_collection : E -> string -> HuggingFaceEmbeddings -> Outcome Coll * E;
  connect_llm : E -> Environ -> ChatPerplexity -> Outcome unit * E;
  copy_to_file : E -> string -> list Byte.byte -> SaveResult * E;
  loader_load : E -> LoaderKind -> string -> Disk -> Outcome (list Document) * E;
  split_documents : E -> SemanticChunker -> list Document -> Outcome (list Document) * E;
  add_documents : E -> HuggingFaceEmbeddings -> Coll -> list Document -> Outcome unit * Coll * E;
  similarity_search :
    E -> HuggingFaceEmbeddings -> Coll -> string -> nat -> Outcome (list Document) * E;
  llm_invoke : E -> ChatPerplexity -> string -> Outcome string * E
}.

(** ** Module-level configuration of [main.py] *)

Definition UPLOAD_DIR : string := "uploaded_files".
Definition DB_DIR : string := "vector_db".

Definition embedding_function : HuggingFaceEmbeddings :=
  {| model_name := "sentence-transformers/all-MiniLM-L6-v2" |}.

Definition llm : ChatPerplexity := {| model := "sonar-pro"; temperature := 1 # 10 |}.

(** A prompt template is literal text with named holes. *)
Inductive Segment := Lit (s : string) | Hole (name : string).

Definition template : list Segment :=
  [ Lit (LF ++
      "You are an intelligent assistant named 'Context AI'. You have access to the following context (excerpts from user documents)." ++ LF ++
      LF ++
      "CONTEXT FROM DOCUMENTS:" ++ LF);
    Hole "context";
    Lit (LF ++
      LF ++
      "USER QUESTION: " ++ LF);
    Hole "question";
    Lit (LF ++
      LF ++
      "INSTRUCTIONS:" ++ LF ++
      "1. **Structure your answer:** - Start with a direct answer in **bold**." ++ LF ++
      "   - Use a " ++ DQ ++ "Key Details" ++ DQ ++ " section with bullet points for explanation." ++ LF ++
      "   - Never write long paragraphs; break them up." ++ LF ++
      "2. **Formatting:** Use Markdown (## Headers, * Bullets, **Bold**) strictly." ++ LF ++
      "3. **Sources:** If the answer is in the document, mention it. If not, state you are using general knowledge." ++ LF ++
      LF ++
      "EXAMPLE FORMAT:" ++ LF ++
      "**The project name is Vitalyze.ai.**" ++ LF ++
      LF ++
      "### Key Details" ++ LF ++
      "* It is an AI-powered health hub." ++ LF ++
      "* The main goal is to simplify medical reports." ++ LF ++
      "* It features a comparative mode and a simple explanation mode." ++ LF) ].

(** Filling the holes from the inputs of [chain.invoke]. *)
Fixpoint format_prompt (t : list Segment) (inputs : gmap string string) : string :=
  match t with
  | [] => EmptyString
  | Lit s :: t' => s ++ format_prompt t' inputs
  | Hole x :: t' => default EmptyString (inputs !! x) ++ format_prompt t' inputs
  end.

(** The prompt text the chain sends for a context and a question. *)
Definition prompt_for (context_text user_question : string) : string :=
  format_prompt template
    (<["context" := context_text]> (<["question" := user_question]> ∅)).

(** ** Responses *)

(** The dict an upload returns: [{"error": ...}] or
    [{"status": "success", "chunks": ...}]. *)
Inductive UploadResponse :=
| UploadError (error : string)
| UploadSuccess (chunks : nat).

(** The dict a chat returns. *)
Record ChatResponse :=
  { response : string; source_docs : list (gmap string MetaValue) }.

(** [os.getenv(key)]: [None] when the variable is not set. *)
Definition os_getenv (environ : Environ) (key : string) : option string := environ !! key.

(** [not v] for a value that is [None] or a string. *)
Definition py_not (v : option string) : bool :=
  match v with
  | None => true
  | Some s => negb (truthy s)
  end.

Definition missing_key_error : Exn :=
  {| exn_class := "ValueError";
     exn_str := "API Key not found! Make sure PPLX_API_KEY is in your .env file." |}.

Section Backend.

Context {E Coll : Type} {X : Externals E Coll}.

(** ** The process state

    The module globals that a handler reads ([vector_store]), the state
    it changes (the disk, the collection inside [vector_store], the
    outside world) and the log of the calls made so far, oldest first. *)
Record Process := {
  environ : Environ;
  vector_store : Chroma Coll;
  disk : Disk;
  outside : E;
  calls : list Call
}.

(** A handler body: it runs on the process state and returns or raises;
    the state changes made before a raise stay. *)
Definition Run (A : Type) : Type := Process -> Outcome A * Process.

Definition ret {A} (a : A) : Run A := fun p => (Returned a, p).

Definition bind {A B} (m : Run A) (f : A -> Run B) : Run B :=
  fun p =>
    match m p with
    | (Returned a, p') => f a p'
    | (Raised e, p') => (Raised e, p')
    end.

(** [try: body  except Exception as e: handler(e)] *)
Definition try_except {A} (body : Run A) (handler : Exn -> Run A) : Run A :=
  fun p =>
    match body p with
    | (Returned a, p') => (Returned a, p')
    | (Raised e, p') => handler e p'
    end.

Notation "'let*' x := m 'in' k" := (bind m (fun x => k))
  (at level 10, x name, m at level 100, k at level 200).

(** One call across the boundary: the world moves on and the call is logged. *)
Definition crossed (p : Process) (c : Call) (w : E) : Process :=
  {| environ := environ p; vector_store := vector_store p; disk := disk p;
     outside := w; calls := calls p ++ [c] |}.

Definition with_disk (p : Process) (d : Disk) : Process :=
  {| environ := environ p; vector_store := vector_store p; disk := d;
     outside := outside p; calls := calls p |}.

Definition with_collection (p : Process) (c : Coll) : Process :=
  {| environ := environ p;
     vector_store := {| persist_directory := persist_directory (vector_store p);
                        chroma_embedding_function := chroma_embedding_function (vector_store p);
                        collection := c |};
     disk := disk p; outside := outside p; calls := calls p |}.

(** [with open(path, "wb") as buffer: shutil.copyfileobj(body, buffer)] *)
Definition open_write (path : string) (body : list Byte.byte) : Run unit :=
  fun p =>
    let '(r, w) := copy_to_file (outside p) path body in
    let p' := crossed p (CallOpenWrite path body) w in
    match r with
    | Saved => (Returned tt, with_disk p' (<[path := body]> (disk p')))
    | SaveFailed e None => (Raised e, p')
    | SaveFailed e (Some part) => (Raised e, with_disk p' (<[path := part]> (disk p')))
    end.

(** [Loader(path).load()] *)
Definition load (loader : LoaderKind) (path : string) : Run (list Document) :=
  fun p =>
    let '(r, w) := loader_load (outside p) loader path (disk p) in
    (r, crossed p (CallLoad loader path) w).

(** [text_splitter.split_documents(documents)] *)
Definition text_splitter_split_documents (text_splitter : SemanticChunker)
    (documents : list Document) : Run (list Document) :=
  fun p =>
    let '(r, w) := split_documents (outside p) text_splitter documents in
    (r, crossed p (CallSplitDocuments text_splitter documents) w).

(** [vector_store.add_documents(documents)]: the store embeds with the
    embedder it was built with. *)
Definition vector_store_add_documents (documents : list Document) : Run unit :=
  fun p =>
    let emb := chroma_embedding_function (vector_store p) in
    let '(r, c, w) := add_documents (outside p) emb (collection (vector_store p)) documents in
    (r, with_collection (crossed p (CallAddDocuments emb documents) w) c).

(** [vector_store.similarity_search(query, k=k)]: the store embeds the
    query with the embedder it was built with. *)
Definition vector_store_similarity_search (query : string) (k : nat) : Run (list Document) :=
  fun p =>
    let emb := chroma_embedding_function (vector_store p) in
    let '(r, w) := similarity_search (outside p) emb (collection (vector_store p)) query k in
    (r, crossed p (CallSimilaritySearch emb query k) w).

(** [(prompt | llm | StrOutputParser()).invoke(inputs)] *)
Definition chain_invoke (inputs : gmap string string) : Run string :=
  fun p =>
    let prompt_text := format_prompt template inputs in
    let '(r, w) := llm_invoke (outside p) llm prompt_text in
    (r, crossed p (CallInvoke llm prompt_text) w).

(** ** Endpoints *)

(** Lines 110-117 of [upload_document]: what follows a successful load. *)
Definition chunk_and_index (documents : list Document) : Run UploadResponse :=
  let text_splitter :=
    {| embeddings := embedding_function; breakpoint_threshold_type := "percentile" |} in
  let* chunked_documents := text_splitter_split_documents text_splitter documents in
  let* _ := vector_store_add_documents chunked_documents in
  ret (UploadSuccess (length chunked_documents)).

(** [POST /upload/] *)
Definition upload_document (upload : UploadFile) : Run UploadResponse :=
  let file_path := os_path_join UPLOAD_DIR (filename upload) in
  let* failed :=
    try_except
      (let* _ := open_write file_path (file upload) in ret None)
      (fun e => ret (Some (UploadError ("Failed to save file: " ++ exn_str e)))) in
  match failed with
  | Some error_response => ret error_response
  | None =>
      if endswith (filename upload) ".pdf" then
        let* documents := load PyPDFLoader file_path in
        chunk_and_index documents
      else if endswith (filename upload) ".docx" then
        let* documents := load Docx2txtLoader file_path in
        chunk_and_index documents
      else
        ret (UploadError "Unsupported file format")
  end.

(** [POST /chat/] *)
Definition chat_endpoint (request : QueryRequest) : Run ChatResponse :=
  let user_question := question request in
  let* results := vector_store_similarity_search user_question 3 in
  let context_text := join (LF ++ LF) (map page_content results) in
  let* answer :=
    chain_invoke (<["context" := context_text]> (<["question" := user_question]> ∅)) in
  ret {| response := answer; source_docs := map metadata results |}.

(** ** Start-up: the module body of [main.py] *)

(** One start-up step: a raise ends the module body. *)
Definition step {A B} (r : Outcome A * E) (k : A -> E -> Outcome B) : Outcome B :=
  match r with
  | (Returned a, w) => k a w
  | (Raised e, _) => Raised e
  end.

(** Lines 35-83: the directories, then the embedder, the store, the
    language-model client and the prompt. *)
Definition set_up (environ2 : Environ) (disk0 : Disk) (w0 : E) : Outcome Process :=
  step (os_makedirs w0 UPLOAD_DIR) (fun _ w1 =>
  step (os_makedirs w1 DB_DIR) (fun _ w2 =>
  step (load_embedding_model w2 embedding_function) (fun _ w3 =>
  step (open_collection w3 DB_DIR embedding_function) (fun c w4 =>
  step (connect_llm w4 environ2 llm) (fun _ w5 =>
  Returned
    {| environ := environ2;
       vector_store := {| persist_directory := DB_DIR;
                          chroma_embedding_function := embedding_function;
                          collection := c |};
       disk := disk0; outside := w5; calls := [] |}))))).

(** Lines 17-33: the credential check, then the rest of the module body. *)
Definition main_module (environ0 : Environ) (disk0 : Disk) (w0 : E) : Outcome Process :=
  let environ1 := load_dotenv w0 environ0 in
  let API_KEY := os_getenv environ1 "PPLX_API_KEY" in
  if py_not API_KEY then Raised missing_key_error
  else
    let environ2 :=
      match API_KEY with
      | Some key => <["PPLX_API_KEY" := key]> environ1
      | None => environ1
      end in
    set_up environ2 disk0 w0.

(** ** Serving requests

    Both handlers are [async def] bodies without a single [await], so
    the event loop runs each of them to its end before it starts the
    next: the requests of a process are handled one after the other.
    FastAPI answers a request whose handler raised with status 500 and
    goes on serving; [InternalServerError e] is that answer, [e] being
    the exception that left the handler (the server logs it, the body
    sent to the client is a fixed text). *)
Inductive Request :=
| PostUpload (upload : UploadFile)
| PostChat (request : QueryRequest).

Inductive Response :=
| UploadJson (r : UploadResponse)
| ChatJson (r : ChatResponse)
| InternalServerError (e : Exn).

Definition respond {A} (wrap : A -> Response) (r : Outcome A * Process) : Response * Process :=
  match r with
  | (Returned a, p') => (wrap a, p')
  | (Raised e, p') => (InternalServerError e, p')
  end.

Definition handle (rq : Request) (p : Process) : Response * Process :=
  match rq with
  | PostUpload upload => respond UploadJson (upload_document upload p)
  | PostChat request => respond ChatJson (chat_endpoint request p)
  end.

Fixpoint serve (p : Process) (rqs : list Request) : list Response * Process :=
  match rqs with
  | [] => ([], p)
  | rq :: rest =>
      let '(r, p') := handle rq p in
      let '(rs, p'') := serve p' rest in
      (r :: rs, p'')
  end.

(** The life of a process: it starts, or dies in the module body and
    serves nothing. *)
Definition lifetime (environ0 : Environ) (disk0 : Disk) (w0 : E) (rqs : list Request)
    : Outcome (list Response * Process) :=
  match main_module environ0 disk0 w0 with
  | Raised e => Raised e
  | Returned p => Returned (serve p rqs)
  end.

End Backend.

(** ** The Vector Index of the specification

    The search itself runs inside Chroma, which is not part of
    [main.py]; this module is the index as the specification describes
    it. *)
Module VectorIndex.

Section Index.

(** The Embedder: text to a fixed-length numeric vector, determined by
    the model. *)
Variable embed : HuggingFaceEmbeddings -> string -> list Q.

(** The distance metric of the index. *)
Variable distance : list Q -> list Q -> Q.

(** The persisted tuple (Embedding, Chunk text, metadata). *)
Record IndexEntry := {
  entry_embedding : list Q;
  entry_text : string;
  entry_metadata : gmap string MetaValue
}.

Definition entry_of (embedder : HuggingFaceEmbeddings) (chunk : Document) : IndexEntry :=
  {| entry_embedding := embed embedder (page_content chunk);
     entry_text := page_content chunk;
     entry_metadata := metadata chunk |}.

(** Modelled from the spec: [add] of the Vector Index (Chroma's
    [add_documents] is missing from the sources).  It persists each
    chunk's text, metadata and embedding and returns the count. *)
Definition add (embedder : HuggingFaceEmbeddings) (index : list IndexEntry)
    (chunks : list Document) : list IndexEntry * nat :=
  (index ++ map (entry_of embedder) chunks, length chunks).

(** Placing one entry into a list ranked closest first; an entry at the
    same distance as an older one goes after it. *)
Fixpoint place (q : list Q) (e : IndexEntry) (ranked : list IndexEntry) : list IndexEntry :=
  match ranked with
  | [] => [e]
  | r :: rest =>
      if Qle_bool (distance q (entry_embedding r)) (distance q (entry_embedding e))
      then r :: place q e rest
      else e :: r :: rest
  end.

Definition rank (q : list Q) (index : list IndexEntry) : list IndexEntry :=
  foldr (place q) [] index.

(** Modelled from the spec: [search] of the Vector Index (Chroma's
    [similarity_search] is missing from the sources).  It embeds the
    query, ranks the entries closest first and returns the first [k] as
    (text, metadata, score). *)
Definition search (embedder : HuggingFaceEmbeddings) (index : list IndexEntry)
    (query_text : string) (k : nat) : list (string * gmap string MetaValue * Q) :=
  let q := embed embedder query_text in
  map (fun e => (entry_text e, entry_metadata e, distance q (entry_embedding e)))
      (take k (rank q index)).

Definition as_document (hit : string * gmap string MetaValue * Q) : Document :=
  {| page_content := hit.1.1; metadata := hit.1.2 |}.

End Index.

End VectorIndex.

(** ** The Semantic Chunker of the specification

    The chunking runs inside LangChain's [SemanticChunker], which is not
    part of [main.py]; this module is the chunker as the specification
    describes it. *)
Module Chunker.

(** The threshold strategies the specification names. *)
Inductive Strategy := Percentile | StandardDeviation | Interquartile.

Definition strategy_of_name (name : string) : option Strategy :=
  if String.eqb name "percentile" then Some Percentile
  else if String.eqb name "standard_deviation" then Some StandardDeviation
  else if String.eqb name "interquartile" then Some Interquartile
  else None.

Section Chunking.

(** The sentence-level candidate units of a text. *)
Variable candidates : string -> list string.

(** The embedding distance between two adjacent candidates. *)
Variable distance : string -> string -> Q.

(** The threshold a strategy derives from all adjacent distances. *)
Variable threshold : Strategy -> list Q -> Q.

(** The text of a chunk made of consecutive candidates. *)
Variable merge : list string -> string.

Fixpoint adjacent_distances (units : list string) : list Q :=
  match units with
  | [] => []
  | u :: rest =>
      match rest with
      | [] => []
      | v :: _ => distance u v :: adjacent_distances rest
      end
  end.

(** A distance is a breakpoint when it exceeds the threshold. *)
Definition is_breakpoint (t d : Q) : bool := negb (Qle_bool d t).

(** Modelled from the spec: the grouping step of the Semantic Chunker
    (LangChain's [SemanticChunker] is missing from the sources).
    Consecutive candidates between breakpoints form one group. *)
Fixpoint groups (t : Q) (units : list string) : list (list string) :=
  match units with
  | [] => []
  | u :: rest =>
      match rest with
      | [] => [[u]]
      | v :: _ =>
          match groups t rest with
          | [] => [[u]]
          | g :: gs =>
              if is_breakpoint t (distance u v) then [u] :: g :: gs else (u :: g) :: gs
          end
      end
  end.

(** Modelled from the spec: chunking one text with the Semantic Chunker
    (LangChain's [SemanticChunker] is missing from the sources).  A text
    with zero or one candidate is one chunk, the text itself. *)
Definition chunk (strategy : Strategy) (text : string) : list string :=
  let units := candidates text in
  match units with
  | [] | [_] => [text]
  | _ => map merge (groups (threshold strategy (adjacent_distances units)) units)
  end.

(** The positions, counted in candidates, at which one group ends and
    the next begins. *)
Fixpoint boundaries (gs : list (list string)) : list nat :=
  match gs with
  | [] => []
  | g :: rest =>
      match rest with
      | [] => []
      | _ :: _ => length g :: map (plus (length g)) (boundaries rest)
      end
  end.

(** Chunking a sequence of text units: every chunk inherits the metadata
    of the unit it was cut from. *)
Definition split (name : string) (documents : list Document) : list Document :=
  let strategy := default Percentile (strategy_of_name name) in
  flat_map (fun d => map (fun t => {| page_content := t; metadata := metadata d |})
                         (chunk strategy (page_content d)))
           documents.

End Chunking.

End Chunker.

(** ** A small concrete world

    Stand-ins for the outside components, on which the handlers can be
    run: an index and a chunker as the specification describes them, over
    a toy embedding; a disk that can be full; a provider that can be down
    for a number of calls. *)
Module Demo.

Record Weather := { disk_full : bool; provider_outage : nat }.

Definition fair : Weather := {| disk_full := false; provider_outage := 0 |}.

(** A one-dimensional embedding: the length of the text. *)
Definition embed (_ : HuggingFaceEmbeddings) (s : string) : list Q :=
  [inject_Z (Z.of_nat (String.length s))].

Definition vector_distance (u v : list Q) : Q :=
  match u, v with
  | [a], [b] => Qabs (a - b)%Q
  | _, _ => 0%Q
  end.

Definition text_distance (u v : string) : Q :=
  vector_distance (embed embedding_function u) (embed embedding_function v).

(** Sentences end at a full stop. *)
Fixpoint split_on (c : ascii) (s : string) : list string :=
  match s with
  | EmptyString => [EmptyString]
  | String a s' =>
      if Ascii.eqb a c then EmptyString :: split_on c s'
      else match split_on c s' with
           | [] => [String a EmptyString]
           | h :: t => String a h :: t
           end
  end.

Definition sentences (s : string) : list string := split_on "."%char s.

Definition largest (ds : list Q) : Q := foldr Qmax 0%Q ds.

Definition threshold (strategy : Chunker.Strategy) (ds : list Q) : Q :=
  match strategy with
  | Chunker.Percentile => (largest ds * (3 # 4))%Q
  | Chunker.StandardDeviation => (largest ds * (1 # 2))%Q
  | Chunker.Interquartile => (largest ds * (1 # 4))%Q
  end.

Definition timeout : Exn :=
  {| exn_class := "TimeoutError"; exn_str := "Request timed out." |}.

Definition no_space : Exn :=
  {| exn_class := "OSError"; exn_str := "[Errno 28] No space left on device" |}.

Definition no_file (path : string) : Exn :=
  {| exn_class := "FileNotFoundError"; exn_str := "No such file: " ++ path |}.

#[global] Instance world : Externals Weather (list VectorIndex.IndexEntry) := {|
  load_dotenv := fun _ environ => environ;
  os_makedirs := fun w _ => (Returned tt, w);
  load_embedding_model := fun w _ => (Returned tt, w);
  open_collection := fun w _ _ => (Returned [], w);
  connect_llm := fun w _ _ => (Returned tt, w);
  copy_to_file := fun w _ _ =>
    if disk_full w then (SaveFailed no_space None, w) else (Saved, w);
  loader_load := fun w _ path d =>
    match d !! path with
    | None => (Raised (no_file path), w)
    | Some body =>
        (Returned [ {| page_content := string_of_list_byte body;
                       metadata := {[ "source" := MStr path ]} |} ], w)
    end;
  split_documents := fun w ts documents =>
    (Returned (Chunker.split sentences text_distance threshold (join ".")
                 (breakpoint_threshold_type ts) documents), w);
  add_documents := fun w embedder index chunks =>
    (Returned tt, (VectorIndex.add embed embedder index chunks).1, w);
  similarity_search := fun w embedder index query k =>
    (Returned (map VectorIndex.as_document
                 (VectorIndex.search embed vector_distance embedder index query k)), w);
  llm_invoke := fun w _ _ =>
    match provider_outage w with
    | O => (Returned "**The project name is Vitalyze.ai.**", w)
    | S n => (Raised timeout, {| disk_full := disk_full w; provider_outage := n |})
    end
|}.

Definition key_set : Environ := {[ "PPLX_API_KEY" := "pplx-0000" ]}.

Definition report_pdf : UploadFile :=
  {| filename := "report.pdf";
     file := list_byte_of_string "The project name is Vitalyze.ai. It is an AI-powered health hub." |}.

Definition notes_txt : UploadFile :=
  {| filename := "notes.txt"; file := list_byte_of_string "plain notes" |}.

Definition ask : QueryRequest := {| question := "What is the project name?" |}.

(** A client may send any file name, also one that begins with a slash. *)
Definition slash_notes : UploadFile :=
  {| filename := "/notes.txt"; file := list_byte_of_string "plain notes" |}.

Definition full_disk : Weather := {| disk_full := true; provider_outage := 0 |}.

Definition outage : Weather := {| disk_full := false; provider_outage := 1 |}.

(** The variable is set, to the empty string. *)
Definition key_empty : Environ := {[ "PPLX_API_KEY" := EmptyString ]}.

(** The process that [main_module] starts from [key_set] on an empty
    disk, in weather [w]. *)
Definition started (w : Weather) : @Process Weather (list VectorIndex.IndexEntry) :=
  {| environ := key_set;
     vector_store := {| persist_directory := DB_DIR;
                        chroma_embedding_function := embedding_function;
                        collection := [] |};
     disk := ∅; outside := w; calls := [] |}.

End Demo.

(** ** How the process is wired

    What every logged call of a running process looks like: the chunker
    is built with the one embedder and the literal ["percentile"], the
    store embeds with the one embedder, searches ask for three results
    and the chain invokes the one language model. *)
Definition wired (c : Call) : Prop :=
  match c with
  | CallOpenWrite _ _ => True
  | CallLoad _ _ => True
  | CallSplitDocuments ts _ =>
      ts = {| embeddings := embedding_function; breakpoint_threshold_type := "percentile" |}
  | CallAddDocuments e _ => e = embedding_function
  | CallSimilaritySearch e _ k => e = embedding_function /\ k = 3
  | CallInvoke l _ => l = llm
  end.

(** A process whose store still holds the embedder it was started with
    and whose log so far is wired. *)
Definition sound {E Coll : Type} (p : @Process E Coll) : Prop :=
  chroma_embedding_function (vector_store p) = embedding_function
  /\ persist_directory (vector_store p) = DB_DIR
  /\ Forall wired (calls p).

(** The number of language-model invocations in a log. *)
Definition is_invoke (c : Call) : bool :=
  match c with CallInvoke _ _ => true | _ => false end.

Definition invocations (cs : list Call) : nat := length (List.filter is_invoke cs).

(** The chat requests among a list of requests. *)
Definition is_chat (rq : Request) : bool :=
  match rq with PostChat _ => true | PostUpload _ => false end.

(** [t] occurs in [s]: the text [t in s] of Python. *)
Definition occurs (t s : string) : Prop :=
  exists before after, s = (before ++ t ++ after)%string.

(** The requests that were answered by the chat handler. *)
Definition is_answer (r : Response) : bool :=
  match r with ChatJson _ => true | _ => false end.

(** A log in which every invocation of the language model comes right
    after a search for three results, and asks about the query of that
    search. *)
Definition grounded (cs : list Call) : Prop :=
  forall i l prompt_text,
    cs !! i = Some (CallInvoke l prompt_text) ->
    exists j embedder query context_text,
      i = S j
      /\ cs !! j = Some (CallSimilaritySearch embedder query 3)
      /\ prompt_text = prompt_for context_text query.

(** ** A world with failing components

    The small world again, with a PDF loader that rejects an empty file
    and an index that refuses to search while it holds nothing. *)
Module Faults.

Definition unreadable : Exn :=
  {| exn_class := "EmptyFileError"; exn_str := "Cannot read an empty file" |}.

Definition nothing_indexed : Exn :=
  {| exn_class := "NotEnoughElementsException";
     exn_str := "Number of requested results 3 cannot be greater than number of elements in index 0" |}.

Definition world : Externals Demo.Weather (list VectorIndex.IndexEntry) := {|
  load_dotenv := load_dotenv (Externals := Demo.world);
  os_makedirs := os_makedirs (Externals := Demo.world);
  load_embedding_model := load_embedding_model (Externals := Demo.world);
  open_collection := open_collection (Externals := Demo.world);
  connect_llm := connect_llm (Externals := Demo.world);
  copy_to_file := copy_to_file (Externals := Demo.world);
  loader_load := fun w loader path d =>
    match d !! path with
    | Some [] => (Raised unreadable, w)
    | _ => loader_load (Externals := Demo.world) w loader path d
    end;
  split_documents := split_documents (Externals := Demo.world);
  add_documents := add_documents (Externals := Demo.world);
  similarity_search := fun w embedder index query k =>
    match index with
    | [] => (Raised nothing_indexed, w)
    | _ => similarity_search (Externals := Demo.world) w embedder index query k
    end;
  llm_invoke := llm_invoke (Externals := Demo.world)
|}.

Definition blank_pdf : UploadFile := {| filename := "blank.pdf"; file := [] |}.

End Faults.

(** ** The language-model client and its provider

    [ChatPerplexity(model=..., temperature=...)] at lines 52-55 passes no
    [max_retries], so the client keeps its default of six: one
    invocation sends up to seven requests, and gives up, raising, only
    when the last of them failed or the failure is one it does not
    retry. *)
Module Client.

(** What the provider answers to one request. *)
Inductive Reply :=
| Completed (text : string)
| RateLimited
| TimedOut
| Unauthorized.

Definition retried (r : Reply) : bool :=
  match r with
  | RateLimited | TimedOut => true
  | Completed _ | Unauthorized => false
  end.

Definition error_of (r : Reply) : Exn :=
  match r with
  | RateLimited => {| exn_class := "RateLimitError"; exn_str := "Error code: 429" |}
  | TimedOut => {| exn_class := "APITimeoutError"; exn_str := "Request timed out." |}
  | Unauthorized => {| exn_class := "AuthenticationError"; exn_str := "Error code: 401" |}
  | Completed _ => {| exn_class := EmptyString; exn_str := EmptyString |}
  end.

Definition max_retries : nat := 6.

(** One invocation against a provider that answers the coming requests
    with [script], in order (and completes every request after those).
    It returns what is left of the script. *)
Fixpoint invoke (retries : nat) (script : list Reply) : Outcome string * list Reply :=
  match script with
  | [] => (Returned "**Direct answer**", [])
  | Completed text :: rest => (Returned text, rest)
  | reply :: rest =>
      if retried reply then
        match retries with
        | O => (Raised (error_of reply), rest)
        | S n => invoke n rest
        end
      else (Raised (error_of reply), rest)
  end.

(** A world that is the provider's script; the other components never
    fail, and the store is the index of the specification. *)
Definition world : Externals (list Reply) (list VectorIndex.IndexEntry) := {|
  load_dotenv := fun _ environ => environ;
  os_makedirs := fun w _ => (Returned tt, w);
  load_embedding_model := fun w _ => (Returned tt, w);
  open_collection := fun w _ _ => (Returned [], w);
  connect_llm := fun w _ _ => (Returned tt, w);
  copy_to_file := fun w _ _ => (Saved, w);
  loader_load := fun w _ path d =>
    (Returned [ {| page_content := string_of_list_byte (default [] (d !! path));
                   metadata := {[ "source" := MStr path ]} |} ], w);
  split_documents := fun w _ documents => (Returned documents, w);
  add_documents := fun w embedder index chunks =>
    (Returned tt, (VectorIndex.add Demo.embed embedder index chunks).1, w);
  similarity_search := fun w embedder index query k =>
    (Returned (map VectorIndex.as_document
                 (VectorIndex.search Demo.embed Demo.vector_distance embedder index query k)), w);
  llm_invoke := fun w _ _ => invoke max_retries w
|}.

(** A process started against a provider with the given script. *)
Definition started (script : list Reply) : @Process (list Reply) (list VectorIndex.IndexEntry) :=
  {| environ := Demo.key_set;
     vector_store := {| persist_directory := DB_DIR;
                        chroma_embedding_function := embedding_function;
                        collection := [] |};
     disk := ∅; outside := script; calls := [] |}.

End Client.

(** ** A store that is the Vector Index of the specification *)

(** Modelled from the spec: the two store calls of a world, as the
    Vector Index of the specification makes them (Chroma's
    [add_documents] and [similarity_search] are missing from the
    sources); every other component is that of [base]. *)
Definition spec_store {E : Type} (base : Externals E (list VectorIndex.IndexEntry))
    (embed : HuggingFaceEmbeddings -> string -> list Q)
    (distance : list Q -> list Q -> Q) : Externals E (list VectorIndex.IndexEntry) := {|
  load_dotenv := load_dotenv (Externals := base);
  os_makedirs := os_makedirs (Externals := base);
  load_embedding_model := load_embedding_model (Externals := base);
  open_collection := open_collection (Externals := base);
  connect_llm := connect_llm (Externals := base);
  copy_to_file := copy_to_file (Externals := base);
  loader_load := loader_load (Externals := base);
  split_documents := split_documents (Externals := base);
  add_documents := fun w embedder index chunks =>
    (Returned tt, (VectorIndex.add embed embedder index chunks).1, w);
  similarity_search := fun w embedder index query k =>
    (Returned (map VectorIndex.as_document
                 (VectorIndex.search embed distance embedder index query k)), w);
  llm_invoke := llm_invoke (Externals := base)
|}.


(** ** More inputs *)

(** A file name that climbs out of the directory it is joined to. *)
Definition escape_txt : UploadFile :=
  {| filename := "../escape.txt"; file := list_byte_of_string "plain notes" |}.


(** * Properties *)

(** ** Strings *)

Lemma endswith_unfold s suffix :
  endswith s suffix =
  if String.eqb s suffix then true
  else match s with
       | EmptyString => false
       | String _ s' => endswith s' suffix
       end.
Proof. by destruct s. Qed.

Lemma endswith_app s suffix :
  endswith s suffix = true <-> exists p, s = (p ++ suffix)%string.
Proof.
  split.
  - induction s as [|a s IH]; rewrite endswith_unfold.
    + destruct (String.eqb_spec EmptyString suffix) as [<-|Hne];
        [by exists EmptyString | discriminate].
    + destruct (String.eqb_spec (String a s) suffix) as [<-|Hne];
        [by exists EmptyString |].
      intros [p ->]%IH. by exists (String a p).
  - intros [p ->]. induction p as [|a p IH]; rewrite endswith_unfold.
    + by rewrite String.eqb_refl.
    + change (String a p +:+ suffix) with (String a (p +:+ suffix)).
      cbv iota. rewrite IH. by destruct (String.eqb _ _).
Qed.

Lemma upload_path_relative name :
  startswith name "/" = false ->
  os_path_join UPLOAD_DIR name = ("uploaded_files/" ++ name)%string.
Proof. intros H. unfold os_path_join. by rewrite H. Qed.

Lemma upload_path_absolute name :
  startswith name "/" = true -> os_path_join UPLOAD_DIR name = name.
Proof. intros H. unfold os_path_join. by rewrite H. Qed.

(** ** The handlers, step by step *)

Section Properties.

Context {E Coll : Type} {X : Externals E Coll}.

Implicit Types (p : @Process E Coll) (w : E).

(** The upload handler, with the save and the format check laid open. *)
Lemma upload_document_unfold upload p :
  upload_document upload p =
  let path := os_path_join UPLOAD_DIR (filename upload) in
  let p0 := crossed p (CallOpenWrite path (file upload))
                    (copy_to_file (outside p) path (file upload)).2 in
  match (copy_to_file (outside p) path (file upload)).1 with
  | Saved =>
      let p1 := with_disk p0 (<[path := file upload]> (disk p)) in
      if endswith (filename upload) ".pdf" then
        bind (load PyPDFLoader path) chunk_and_index p1
      else if endswith (filename upload) ".docx" then
        bind (load Docx2txtLoader path) chunk_and_index p1
      else (Returned (UploadError "Unsupported file format"), p1)
  | SaveFailed e None =>
      (Returned (UploadError ("Failed to save file: " ++ exn_str e)), p0)
  | SaveFailed e (Some part) =>
      (Returned (UploadError ("Failed to save file: " ++ exn_str e)),
       with_disk p0 (<[path := part]> (disk p)))
  end.
Proof.
  unfold upload_document, bind, try_except, open_write, ret.
  destruct (copy_to_file _ _ _) as [[|e [part|]] w]; simpl; try reflexivity.
  by repeat case_match.
Qed.

(** Lines 110-117, with the chunker and the store laid open. *)
Lemma chunk_and_index_unfold documents p :
  chunk_and_index documents p =
  let ts := {| embeddings := embedding_function; breakpoint_threshold_type := "percentile" |} in
  let emb := chroma_embedding_function (vector_store p) in
  match split_documents (outside p) ts documents with
  | (Raised e, w1) => (Raised e, crossed p (CallSplitDocuments ts documents) w1)
  | (Returned chunks, w1) =>
      let p1 := crossed p (CallSplitDocuments ts documents) w1 in
      match add_documents w1 emb (collection (vector_store p)) chunks with
      | (r, c, w2) =>
          let p2 := with_collection (crossed p1 (CallAddDocuments emb chunks) w2) c in
          match r with
          | Returned _ => (Returned (UploadSuccess (length chunks)), p2)
          | Raised e => (Raised e, p2)
          end
      end
  end.
Proof.
  unfold chunk_and_index, bind, text_splitter_split_documents, vector_store_add_documents, ret.
  destruct (split_documents _ _ _) as [[chunks|e] w1]; simpl; [|reflexivity].
  destruct (add_documents _ _ _ _) as [[[[]|e] c] w2]; reflexivity.
Qed.

(** The chat handler, with the search and the chain laid open. *)
Lemma chat_endpoint_unfold request p :
  chat_endpoint request p =
  let emb := chroma_embedding_function (vector_store p) in
  let search := CallSimilaritySearch emb (question request) 3 in
  match similarity_search (outside p) emb (collection (vector_store p)) (question request) 3 with
  | (Raised e, w1) => (Raised e, crossed p search w1)
  | (Returned results, w1) =>
      let prompt_text :=
        prompt_for (join (LF ++ LF) (map page_content results)) (question request) in
      match llm_invoke w1 llm prompt_text with
      | (Raised e, w2) => (Raised e, crossed (crossed p search w1) (CallInvoke llm prompt_text) w2)
      | (Returned answer, w2) =>
          (Returned {| response := answer; source_docs := map metadata results |},
           crossed (crossed p search w1) (CallInvoke llm prompt_text) w2)
      end
  end.
Proof.
  unfold chat_endpoint, bind, vector_store_similarity_search, chain_invoke, ret.
  destruct (similarity_search _ _ _ _ _) as [[results|e] w1]; simpl; [|reflexivity].
  by destruct (llm_invoke _ _ _) as [[answer|e] w2].
Qed.

(** ** Wiring is kept by every request *)

Lemma sound_crossed p c w : sound p -> wired c -> sound (crossed p c w).
Proof.
  intros (He & Hd & Hc) Hw. repeat split; simpl; try done.
  apply Forall_app. auto.
Qed.

Lemma sound_with_disk p d : sound p -> sound (with_disk p d).
Proof. by intros (He & Hd & Hc). Qed.

Lemma sound_with_collection p c : sound p -> sound (with_collection p c).
Proof. by intros (He & Hd & Hc). Qed.

Lemma load_sound loader path p : sound p -> sound (load loader path p).2.
Proof.
  intros H. unfold load. destruct (loader_load _ _ _ _) as [r w]. simpl.
  apply sound_crossed; [done | exact I].
Qed.

Lemma chunk_and_index_sound documents p :
  sound p -> sound (chunk_and_index documents p).2.
Proof.
  intros H. rewrite chunk_and_index_unfold. cbv zeta.
  assert (chroma_embedding_function (vector_store p) = embedding_function) as Hemb by apply H.
  destruct (split_documents _ _ _) as [[chunks|e] w1]; simpl.
  - destruct (add_documents _ _ _ _) as [[r c] w2].
    assert (sound (with_collection
      (crossed (crossed p (CallSplitDocuments
         {| embeddings := embedding_function; breakpoint_threshold_type := "percentile" |}
         documents) w1)
         (CallAddDocuments (chroma_embedding_function (vector_store p)) chunks) w2) c)).
    { apply sound_with_collection, sound_crossed; [|exact Hemb].
      by apply sound_crossed. }
    by destruct r.
  - by apply sound_crossed.
Qed.

Lemma upload_document_sound upload p :
  sound p -> sound (upload_document upload p).2.
Proof.
  intros H. rewrite upload_document_unfold. cbv zeta.
  destruct (copy_to_file _ _ _) as [[|e [part|]] w]; simpl.
  - set (p1 := with_disk _ _).
    assert (sound p1) as H1 by (apply sound_with_disk, sound_crossed; [done | exact I]).
    assert (forall loader, sound
      (bind (load loader (os_path_join UPLOAD_DIR (filename upload))) chunk_and_index p1).2) as Hl.
    { intros loader. unfold bind.
      pose proof (load_sound loader (os_path_join UPLOAD_DIR (filename upload)) p1 H1) as H2.
      destruct (load _ _ p1) as [[documents|e] p2]; simpl in *; [|done].
      by apply chunk_and_index_sound. }
    repeat case_match; auto.
  - apply sound_with_disk, sound_crossed; [done | exact I].
  - apply sound_crossed; [done | exact I].
Qed.

Lemma chat_endpoint_sound request p :
  sound p -> sound (chat_endpoint request p).2.
Proof.
  intros H. rewrite chat_endpoint_unfold. cbv zeta.
  assert (chroma_embedding_function (vector_store p) = embedding_function) as Hemb by apply H.
  destruct (similarity_search _ _ _ _ _) as [[results|e] w1]; simpl.
  - destruct (llm_invoke _ _ _) as [[answer|e] w2]; simpl;
      (apply sound_crossed; [apply sound_crossed; [done | by split] | done]).
  - apply sound_crossed; [done | by split].
Qed.

Lemma handle_sound rq p : sound p -> sound (handle rq p).2.
Proof.
  intros H. destruct rq as [upload|request]; simpl.
  - pose proof (upload_document_sound upload p H). by destruct (upload_document upload p) as [[]].
  - pose proof (chat_endpoint_sound request p H). by destruct (chat_endpoint request p) as [[]].
Qed.

Lemma serve_sound rqs : forall p, sound p -> sound (serve p rqs).2.
Proof.
  induction rqs as [|rq rest IH]; intros p H; simpl; [done|].
  pose proof (handle_sound rq p H) as H1.
  destruct (handle rq p) as [r p1]. specialize (IH p1 H1).
  by destruct (serve p1 rest).
Qed.

Lemma main_module_sound environ0 disk0 w0 p :
  main_module environ0 disk0 w0 = Returned p -> sound p.
Proof.
  unfold main_module, set_up, step. intros H.
  repeat case_match; try discriminate. injection H as <-.
  repeat split. constructor.
Qed.

Lemma lifetime_sound environ0 disk0 w0 rqs rs p :
  lifetime environ0 disk0 w0 rqs = Returned (rs, p) -> sound p.
Proof.
  unfold lifetime. destruct (main_module _ _ _) as [p0|e] eqn:Hm; [|discriminate].
  intros [= Hs]. apply main_module_sound in Hm.
  pose proof (serve_sound rqs p0 Hm) as H. by rewrite Hs in H.
Qed.

(** Every request is answered. *)
Lemma serve_length rqs : forall p, length (serve p rqs).1 = length rqs.
Proof.
  induction rqs as [|rq rest IH]; intros p; simpl; [done|].
  destruct (handle rq p) as [r p1]. specialize (IH p1).
  destruct (serve p1 rest). simpl in *. by rewrite IH.
Qed.

(** ** Chat *)

(** C1, amended. When the chain invocation of a chat request raises (the
    client has given up, after the retries it makes by itself), the
    request is answered with an error response carrying that failure;
    the handler invoked the chain once and does not invoke it again; the
    store, the disk and the environment are as before, and the requests
    that follow are served. *)
Theorem chat_generation_error_surfaced request rest p results w1 e w2 :
  similarity_search (outside p) (chroma_embedding_function (vector_store p))
    (collection (vector_store p)) (question request) 3 = (Returned results, w1) ->
  llm_invoke w1 llm
    (prompt_for (join (LF ++ LF) (map page_content results)) (question request))
    = (Raised e, w2) ->
  exists p',
    handle (PostChat request) p = (InternalServerError e, p')
    /\ invocations (calls p') = S (invocations (calls p))
    /\ vector_store p' = vector_store p
    /\ disk p' = disk p
    /\ environ p' = environ p
    /\ serve p (PostChat request :: rest)
       = (InternalServerError e :: (serve p' rest).1, (serve p' rest).2)
    /\ length (serve p (PostChat request :: rest)).1 = S (length rest).
Proof.
  intros Hsearch Hllm.
  assert (handle (PostChat request) p
          = (InternalServerError e,
             crossed (crossed p (CallSimilaritySearch
                                   (chroma_embedding_function (vector_store p))
                                   (question request) 3) w1)
                     (CallInvoke llm
                        (prompt_for (join (LF ++ LF) (map page_content results))
                                    (question request))) w2)) as Hh.
  { simpl. rewrite chat_endpoint_unfold. cbv zeta. by rewrite Hsearch, Hllm. }
  eexists. split; [exact Hh|].
  split.
  { simpl. unfold invocations. rewrite !List.filter_app, !length_app. simpl. lia. }
  do 3 (split; [reflexivity|]).
  split.
  - cbn [serve]. rewrite Hh. by destruct (serve _ rest).
  - apply (serve_length (PostChat request :: rest)).
Qed.

(** ** Upload *)

(** C4. When an upload succeeds, the chunks the chunker returned were
    all handed to the store in one call, the last call made before the
    handler returned; the collection is what that call left, and the
    response counts exactly those chunks. *)
Theorem upload_success_adds_all_chunks upload p n p' :
  upload_document upload p = (Returned (UploadSuccess n), p') ->
  let path := os_path_join UPLOAD_DIR (filename upload) in
  let emb := chroma_embedding_function (vector_store p) in
  let ts := {| embeddings := embedding_function; breakpoint_threshold_type := "percentile" |} in
  exists loader documents chunks,
    calls p' = calls p ++
      [ CallOpenWrite path (file upload); CallLoad loader path;
        CallSplitDocuments ts documents; CallAddDocuments emb chunks ]
    /\ (exists w w', split_documents w ts documents = (Returned chunks, w'))
    /\ (exists w w', add_documents w emb (collection (vector_store p)) chunks
                     = (Returned tt, collection (vector_store p'), w'))
    /\ n = length chunks.
Proof.
  rewrite upload_document_unfold. cbv zeta.
  destruct (copy_to_file _ _ _) as [[|e [part|]] w] eqn:Hsave; simpl; try discriminate.
  set (path := os_path_join UPLOAD_DIR (filename upload)).
  set (p1 := with_disk _ _).
  assert (forall loader,
    bind (load loader path) chunk_and_index p1 = (Returned (UploadSuccess n), p') ->
    exists documents chunks,
      calls p' = calls p ++
        [ CallOpenWrite path (file upload); CallLoad loader path;
          CallSplitDocuments
            {| embeddings := embedding_function; breakpoint_threshold_type := "percentile" |}
            documents;
          CallAddDocuments (chroma_embedding_function (vector_store p)) chunks ]
      /\ (exists w w', split_documents w
            {| embeddings := embedding_function; breakpoint_threshold_type := "percentile" |}
            documents = (Returned chunks, w'))
      /\ (exists w w', add_documents w (chroma_embedding_function (vector_store p))
                         (collection (vector_store p)) chunks
                       = (Returned tt, collection (vector_store p'), w'))
      /\ n = length chunks) as Hl.
  { intros loader. unfold bind, load.
    destruct (loader_load _ _ _ _) as [[documents|e] w1]; [|discriminate].
    rewrite chunk_and_index_unfold. cbv zeta. simpl.
    destruct (split_documents _ _ _) as [[chunks|e] w2] eqn:Hsplit; [|discriminate].
    destruct (add_documents _ _ _ _) as [[[[]|e] c] w3] eqn:Hadd; [|discriminate].
    intros [= <- <-]. exists documents, chunks. simpl.
    rewrite <- !app_assoc. simpl. eauto 10. }
  destruct (endswith (filename upload) ".pdf").
  { intros H. exists PyPDFLoader. by apply Hl. }
  destruct (endswith (filename upload) ".docx").
  { intros H. exists Docx2txtLoader. by apply Hl. }
  discriminate.
Qed.

(** C3, amended. An upload whose file name ends in neither [.pdf] nor
    [.docx] is answered with a structured error and nothing is added to
    the index: the only call made is the write of the raw file.  The
    error is the unsupported-format error when the file was saved and the
    save-failure error when saving raised. *)
Theorem upload_unsupported_is_rejected upload p :
  endswith (filename upload) ".pdf" = false ->
  endswith (filename upload) ".docx" = false ->
  let path := os_path_join UPLOAD_DIR (filename upload) in
  exists message p',
    upload_document upload p = (Returned (UploadError message), p')
    /\ vector_store p' = vector_store p
    /\ calls p' = calls p ++ [CallOpenWrite path (file upload)]
    /\ message =
       match (copy_to_file (outside p) path (file upload)).1 with
       | Saved => "Unsupported file format"
       | SaveFailed e _ => ("Failed to save file: " ++ exn_str e)%string
       end.
Proof.
  intros Hpdf Hdocx. rewrite upload_document_unfold. cbv zeta. rewrite Hpdf, Hdocx.
  destruct (copy_to_file _ _ _) as [[|e [part|]] w]; simpl; eauto 10.
Qed.

(** ** The whole life of a process *)

Lemma wired_in p c : sound p -> In c (calls p) -> wired c.
Proof. intros (_ & _ & H) Hin. rewrite Forall_forall in H. by apply H, list_elem_of_In. Qed.

(** C6. In a process that started, every call that embeds chunks for the
    index and every call that embeds a query was made with the store's
    embedder, which is still the one embedder built at start-up; so any
    ingestion and any search of the process use the same embedder.  The
    chunker, too, is built with it. *)
Theorem one_embedder_for_index_and_query environ0 disk0 w0 rqs rs p :
  lifetime environ0 disk0 w0 rqs = Returned (rs, p) ->
  chroma_embedding_function (vector_store p) = embedding_function
  /\ (forall e1 chunks e2 query k,
        In (CallAddDocuments e1 chunks) (calls p) ->
        In (CallSimilaritySearch e2 query k) (calls p) ->
        e1 = e2 /\ e2 = embedding_function)
  /\ (forall e1 chunks, In (CallAddDocuments e1 chunks) (calls p) -> e1 = embedding_function)
  /\ (forall e2 query k,
        In (CallSimilaritySearch e2 query k) (calls p) -> e2 = embedding_function)
  /\ (forall ts documents,
        In (CallSplitDocuments ts documents) (calls p) -> embeddings ts = embedding_function).
Proof.
  intros Hsound%lifetime_sound.
  split; [apply Hsound|].
  split.
  { intros e1 chunks e2 query k H1%(wired_in _ _ Hsound) H2%(wired_in _ _ Hsound).
    simpl in *. destruct H2 as [-> _]. by subst. }
  split; [intros e1 chunks H%(wired_in _ _ Hsound); exact H|].
  split; [intros e2 query k H%(wired_in _ _ Hsound); apply H|].
  intros ts documents H%(wired_in _ _ Hsound). simpl in H. by subst.
Qed.

(** ** Start-up *)

(** C8, amended. With [PPLX_API_KEY] absent or empty after
    [load_dotenv()], the module body raises and the process serves no
    request.  With a non-empty key the check passes and start-up
    proceeds to the rest of the module body, with the key in the
    environment; where that sets up the directories and the components
    without raising, the process starts and serves. *)
Theorem missing_credential_is_fatal environ0 disk0 w0 :
  let environ1 := load_dotenv w0 environ0 in
  let API_KEY := os_getenv environ1 "PPLX_API_KEY" in
  ((API_KEY = None \/ API_KEY = Some EmptyString) ->
     main_module environ0 disk0 w0 = Raised missing_key_error
     /\ forall rqs, lifetime environ0 disk0 w0 rqs = Raised missing_key_error)
  /\ (forall key, API_KEY = Some key -> key <> EmptyString ->
       main_module environ0 disk0 w0
       = set_up (<["PPLX_API_KEY" := key]> environ1) disk0 w0
       /\ forall p,
            set_up (<["PPLX_API_KEY" := key]> environ1) disk0 w0 = Returned p ->
            environ p !! "PPLX_API_KEY" = Some key
            /\ calls p = []
            /\ forall rqs, lifetime environ0 disk0 w0 rqs = Returned (serve p rqs)).
Proof.
  cbv zeta. split.
  - intros H.
    assert (main_module environ0 disk0 w0 = Raised missing_key_error) as Hm.
    { unfold main_module. by destruct H as [-> | ->]. }
    split; [done|]. intros rqs. unfold lifetime. by rewrite Hm.
  - intros key Hkey Hne.
    assert (py_not (Some key) = false) as Hnot by (by destruct key).
    assert (main_module environ0 disk0 w0
            = set_up (<["PPLX_API_KEY" := key]> (load_dotenv w0 environ0)) disk0 w0) as Hm.
    { unfold main_module. by rewrite Hkey, Hnot. }
    split; [exact Hm|]. intros p Hp.
    assert (environ p = <["PPLX_API_KEY" := key]> (load_dotenv w0 environ0) /\ calls p = [])
      as [Henv Hcalls].
    { revert Hp. unfold set_up, step. repeat case_match; try discriminate.
      by intros [= <-]. }
    split; [by rewrite Henv, lookup_insert_eq|].
    split; [exact Hcalls|].
    intros rqs. unfold lifetime. by rewrite Hm, Hp.
Qed.

End Properties.

(** ** The Vector Index of the specification *)

Section IndexProperties.

Variable embed : HuggingFaceEmbeddings -> string -> list Q.
Variable distance : list Q -> list Q -> Q.

Lemma place_length q e ranked :
  length (VectorIndex.place distance q e ranked) = S (length ranked).
Proof.
  induction ranked as [|r rest IH]; simpl; [done|].
  destruct (Qle_bool _ _); simpl; by rewrite ?IH.
Qed.

Lemma rank_length q index : length (VectorIndex.rank distance q index) = length index.
Proof.
  induction index as [|e rest IH]; simpl; [done|].
  by rewrite place_length, IH.
Qed.

Lemma search_length embedder index query k :
  length (VectorIndex.search embed distance embedder index query k)
  = Nat.min k (length index).
Proof. unfold VectorIndex.search. by rewrite length_map, length_take, rank_length. Qed.

End IndexProperties.

(** C5. On the index of the specification a search is a total function:
    on an empty index it returns the empty sequence, on an index of [n]
    entries it returns [min k n] results, so exactly [n] when [n < k].
    The chat handler over such an index, when the index is empty, gets no
    results, asks the model with an empty context and returns no source
    documents. *)
Theorem search_underfill (embed : HuggingFaceEmbeddings -> string -> list Q)
    (distance : list Q -> list Q -> Q) embedder index query k :
  VectorIndex.search embed distance embedder [] query k = []
  /\ (forall n, length index = n -> n < k ->
        length (VectorIndex.search embed distance embedder index query k) = n)
  /\ (forall (p : @Process Demo.Weather (list VectorIndex.IndexEntry)) request,
        collection (vector_store p) = [] ->
        let out := chat_endpoint (X := Demo.world) request p in
        calls out.2 =
          calls p ++
          [ CallSimilaritySearch (chroma_embedding_function (vector_store p))
              (question request) 3;
            CallInvoke llm (prompt_for EmptyString (question request)) ]
        /\ forall r, out.1 = Returned r -> source_docs r = []).
Proof.
  split; [|split].
  - unfold VectorIndex.search. simpl. by destruct k.
  - intros n Hn Hlt. rewrite search_length. lia.
  - intros p request Hempty. cbv zeta. rewrite chat_endpoint_unfold. cbv zeta.
    simpl. rewrite Hempty. unfold VectorIndex.search. simpl.
    destruct (Demo.provider_outage (outside p)); simpl; rewrite <- app_assoc; simpl.
    + split; [done|]. by intros r [= <-].
    + split; [done|]. by intros r [=].
Qed.

(** ** The Semantic Chunker of the specification *)

Section ChunkerProperties.

Variable candidates : string -> list string.
Variable distance : string -> string -> Q.
Variable threshold : Chunker.Strategy -> list Q -> Q.
Variable merge : list string -> string.

Lemma is_breakpoint_lt t d : Chunker.is_breakpoint t d = true <-> (t < d)%Q.
Proof.
  unfold Chunker.is_breakpoint. rewrite negb_true_iff.
  destruct (Qle_bool d t) eqn:H.
  - apply Qle_bool_iff in H. split; [discriminate|]. intros Hlt. by apply Qlt_not_le in Hlt.
  - split; [|done]. intros _. apply Qnot_le_lt. intros Hle%Qle_bool_iff. congruence.
Qed.

Lemma groups_step t u v rest :
  Chunker.groups distance t (u :: v :: rest) =
  match Chunker.groups distance t (v :: rest) with
  | [] => [[u]]
  | g :: gs =>
      if Chunker.is_breakpoint t (distance u v) then [u] :: g :: gs else (u :: g) :: gs
  end.
Proof. reflexivity. Qed.

(** The groups are the candidates, in order, none lost or repeated. *)
Lemma concat_groups t units : concat (Chunker.groups distance t units) = units.
Proof.
  induction units as [|u [|v rest] IH]; [done | done |].
  rewrite groups_step.
  destruct (Chunker.groups distance t (v :: rest)) as [|g gs]; [discriminate|].
  destruct (Chunker.is_breakpoint _ _); simpl in *; by rewrite IH.
Qed.

Lemma groups_inhabited t units : Forall (fun g => g <> []) (Chunker.groups distance t units).
Proof.
  induction units as [|u [|v rest] IH]; [constructor | by repeat constructor |].
  rewrite groups_step.
  destruct (Chunker.groups distance t (v :: rest)) as [|g gs]; [by repeat constructor|].
  destruct (Chunker.is_breakpoint _ _).
  - by constructor.
  - inversion IH; subst. by constructor.
Qed.

Lemma boundaries_grow (u : string) g gs :
  Chunker.boundaries ((u :: g) :: gs) = map S (Chunker.boundaries (g :: gs)).
Proof.
  destruct gs as [|g' gs]; [done|]. simpl. f_equal. by rewrite map_map.
Qed.

Lemma boundaries_positive gs b :
  Forall (fun g => g <> []) gs -> In b (Chunker.boundaries gs) -> 0 < b.
Proof.
  revert b. induction gs as [|g [|g' gs] IH]; intros b Hne; [done | done |].
  inversion Hne as [|? ? Hg Hrest]; subst.
  change (Chunker.boundaries (g :: g' :: gs))
    with (length g :: map (plus (length g)) (Chunker.boundaries (g' :: gs))).
  assert (0 < length g) by (destruct g; [done | simpl; lia]).
  intros [<- | (b' & <- & Hb')%in_map_iff]; lia.
Qed.

Lemma boundary_iff_breakpoint t units :
  forall i u v,
    units !! i = Some u -> units !! S i = Some v ->
    In (S i) (Chunker.boundaries (Chunker.groups distance t units))
    <-> Chunker.is_breakpoint t (distance u v) = true.
Proof.
  induction units as [|a [|b rest] IH]; intros i u v Hu Hv; [done | done |].
  rewrite groups_step.
  pose proof (groups_inhabited t (b :: rest)) as Hne.
  pose proof (concat_groups t (b :: rest)) as Hcat.
  destruct (Chunker.groups distance t (b :: rest)) as [|g gs] eqn:Hg; [discriminate|].
  assert (forall j, In (S j) (map S (Chunker.boundaries (g :: gs)))
                    <-> In j (Chunker.boundaries (g :: gs))) as Hshift.
  { intros j. rewrite in_map_iff. split; [by intros (x & [= ->] & Hx) | eauto]. }
  destruct i as [|j].
  - simpl in Hu, Hv. injection Hu as <-. injection Hv as <-.
    destruct (Chunker.is_breakpoint t (distance a b)).
    + split; [done|]. intros _. by left.
    + rewrite boundaries_grow, Hshift. split; [|done].
      intros H0%(boundaries_positive _ _ Hne). lia.
  - simpl in Hu, Hv. rewrite <- (IH j u v Hu Hv).
    destruct (Chunker.is_breakpoint t (distance a b)).
    + change (Chunker.boundaries ([a] :: g :: gs)) with (1 :: map S (Chunker.boundaries (g :: gs))).
      rewrite <- Hshift. simpl. split; [by intros [[=]|] | by right].
    + by rewrite boundaries_grow, Hshift.
Qed.

(** C7. On the chunker of the specification, a text with zero or one
    candidate unit is chunked into exactly one chunk, the text itself.
    The groups are the candidates in order, and a group ends between two
    adjacent candidates exactly when their distance is strictly greater
    than the threshold: a distance equal to or below it never splits. *)
Theorem chunker_edge_cases strategy text :
  (length (candidates text) <= 1 ->
     Chunker.chunk candidates distance threshold merge strategy text = [text])
  /\ (forall t units, concat (Chunker.groups distance t units) = units)
  /\ (forall t (units : list string) i u v,
        units !! i = Some u -> units !! S i = Some v ->
        (In (S i) (Chunker.boundaries (Chunker.groups distance t units)) <-> (t < distance u v)%Q)
        /\ ((distance u v <= t)%Q ->
            ~ In (S i) (Chunker.boundaries (Chunker.groups distance t units)))).
Proof.
  split; [|split].
  - unfold Chunker.chunk. destruct (candidates text) as [|u [|v rest]]; simpl; [done | done | lia].
  - apply concat_groups.
  - intros t units i u v Hu Hv.
    pose proof (boundary_iff_breakpoint t units i u v Hu Hv) as H.
    rewrite is_breakpoint_lt in H. split; [exact H|].
    intros Hle Hin%H. by apply Qlt_not_le in Hin.
Qed.

End ChunkerProperties.

(** ** The handlers at work in the small world *)

Example demo_starts w :
  main_module (X := Demo.world) Demo.key_set ∅ w = Returned (Demo.started w).
Proof. reflexivity. Qed.

Lemma chat_generation_error_surfaced_witness :
  similarity_search (outside (Demo.started Demo.outage))
    (chroma_embedding_function (vector_store (Demo.started Demo.outage)))
    (collection (vector_store (Demo.started Demo.outage))) (question Demo.ask) 3
  = (Returned [], Demo.outage)
  /\ llm_invoke Demo.outage llm
       (prompt_for (join (LF ++ LF) (map page_content [])) (question Demo.ask))
     = (Raised Demo.timeout, Demo.fair)
  /\ exists p',
       handle (X := Demo.world) (PostChat Demo.ask) (Demo.started Demo.outage)
       = (InternalServerError Demo.timeout, p')
       /\ invocations (calls p') = S (invocations (calls (Demo.started Demo.outage)))
       /\ vector_store p' = vector_store (Demo.started Demo.outage)
       /\ disk p' = disk (Demo.started Demo.outage)
       /\ environ p' = environ (Demo.started Demo.outage)
       /\ serve (X := Demo.world) (Demo.started Demo.outage)
            (PostChat Demo.ask :: [PostChat Demo.ask])
          = (InternalServerError Demo.timeout
               :: (serve (X := Demo.world) p' [PostChat Demo.ask]).1,
             (serve (X := Demo.world) p' [PostChat Demo.ask]).2)
       /\ length (serve (X := Demo.world) (Demo.started Demo.outage)
                    (PostChat Demo.ask :: [PostChat Demo.ask])).1 = 2.
Proof.
  split; [reflexivity|]. split; [reflexivity|].
  apply (chat_generation_error_surfaced (X := Demo.world) Demo.ask [PostChat Demo.ask]
           (Demo.started Demo.outage) [] Demo.outage Demo.timeout Demo.fair);
    reflexivity.
Defined.

(** After the failed chat the same process answers the next one. *)
Example chat_after_outage :
  (serve (X := Demo.world) (Demo.started Demo.outage) [PostChat Demo.ask; PostChat Demo.ask]).1
  = [ InternalServerError Demo.timeout;
      ChatJson {| response := "**The project name is Vitalyze.ai.**"; source_docs := [] |} ].
Proof. reflexivity. Qed.

Lemma upload_success_adds_all_chunks_witness :
  let p := Demo.started Demo.fair in
  let out := upload_document (X := Demo.world) Demo.report_pdf p in
  upload_document (X := Demo.world) Demo.report_pdf p = (Returned (UploadSuccess 4), out.2)
  /\ exists loader documents chunks,
       calls out.2 = calls p ++
         [ CallOpenWrite "uploaded_files/report.pdf" (file Demo.report_pdf);
           CallLoad loader "uploaded_files/report.pdf";
           CallSplitDocuments
             {| embeddings := embedding_function; breakpoint_threshold_type := "percentile" |}
             documents;
           CallAddDocuments embedding_function chunks ]
       /\ (exists w w', split_documents w
             {| embeddings := embedding_function; breakpoint_threshold_type := "percentile" |}
             documents = (Returned chunks, w'))
       /\ (exists w w', add_documents w embedding_function (collection (vector_store p)) chunks
                        = (Returned tt, collection (vector_store out.2), w'))
       /\ 4 = length chunks.
Proof.
  cbv zeta.
  assert (upload_document (X := Demo.world) Demo.report_pdf (Demo.started Demo.fair)
          = (Returned (UploadSuccess 4),
             (upload_document (X := Demo.world) Demo.report_pdf (Demo.started Demo.fair)).2))
    as H by (vm_compute; reflexivity).
  split; [exact H|].
  exact (upload_success_adds_all_chunks (X := Demo.world) Demo.report_pdf
           (Demo.started Demo.fair) 4 _ H).
Defined.

Lemma upload_unsupported_is_rejected_witness :
  endswith (filename Demo.notes_txt) ".pdf" = false
  /\ endswith (filename Demo.notes_txt) ".docx" = false
  /\ exists message p',
       upload_document (X := Demo.world) Demo.notes_txt (Demo.started Demo.fair)
       = (Returned (UploadError message), p')
       /\ vector_store p' = vector_store (Demo.started Demo.fair)
       /\ calls p' = calls (Demo.started Demo.fair)
                     ++ [CallOpenWrite "uploaded_files/notes.txt" (file Demo.notes_txt)]
       /\ message = "Unsupported file format".
Proof.
  split; [reflexivity|]. split; [reflexivity|].
  exact (upload_unsupported_is_rejected (X := Demo.world) Demo.notes_txt
           (Demo.started Demo.fair) eq_refl eq_refl).
Defined.

(** C3 as stated fails when the save raises: a [.txt] upload onto a full
    disk is answered with the save-failure error, not with the
    unsupported-format error. *)
Lemma upload_txt_on_full_disk :
  endswith (filename Demo.notes_txt) ".pdf" = false
  /\ endswith (filename Demo.notes_txt) ".docx" = false
  /\ (upload_document (X := Demo.world) Demo.notes_txt (Demo.started Demo.full_disk)).1
     = Returned (UploadError "Failed to save file: [Errno 28] No space left on device")
  /\ (upload_document (X := Demo.world) Demo.notes_txt (Demo.started Demo.full_disk)).1
     <> Returned (UploadError "Unsupported file format").
Proof. repeat split; try reflexivity. discriminate. Qed.

Lemma demo_lifetime :
  let rqs := [PostUpload Demo.report_pdf; PostChat Demo.ask] in
  lifetime (X := Demo.world) Demo.key_set ∅ Demo.fair rqs
  = Returned ((serve (X := Demo.world) (Demo.started Demo.fair) rqs).1,
              (serve (X := Demo.world) (Demo.started Demo.fair) rqs).2).
Proof. vm_compute. reflexivity. Qed.

Lemma one_embedder_for_index_and_query_witness :
  let rqs := [PostUpload Demo.report_pdf; PostChat Demo.ask] in
  let p := (serve (X := Demo.world) (Demo.started Demo.fair) rqs).2 in
  lifetime (X := Demo.world) Demo.key_set ∅ Demo.fair rqs
  = Returned ((serve (X := Demo.world) (Demo.started Demo.fair) rqs).1, p)
  /\ (exists e1 chunks, In (CallAddDocuments e1 chunks) (calls p))
  /\ (exists e2 query k, In (CallSimilaritySearch e2 query k) (calls p))
  /\ forall e1 chunks e2 query k,
       In (CallAddDocuments e1 chunks) (calls p) ->
       In (CallSimilaritySearch e2 query k) (calls p) ->
       e1 = e2 /\ e2 = embedding_function.
Proof.
  cbv zeta. split; [exact demo_lifetime|].
  split; [do 2 eexists; vm_compute; do 3 right; left; reflexivity|].
  split; [do 3 eexists; vm_compute; do 4 right; left; reflexivity|].
  exact (proj1 (proj2 (one_embedder_for_index_and_query (X := Demo.world)
                         _ _ _ _ _ _ demo_lifetime))).
Defined.

Lemma missing_credential_is_fatal_witness :
  (os_getenv (load_dotenv Demo.fair ∅) "PPLX_API_KEY" = None
   /\ forall rqs, lifetime (X := Demo.world) ∅ ∅ Demo.fair rqs = Raised missing_key_error)
  /\ (os_getenv (load_dotenv Demo.fair Demo.key_set) "PPLX_API_KEY" = Some "pplx-0000"
      /\ "pplx-0000" <> EmptyString
      /\ set_up (X := Demo.world) (<["PPLX_API_KEY" := "pplx-0000"]> Demo.key_set) ∅ Demo.fair
         = Returned (Demo.started Demo.fair)
      /\ environ (Demo.started Demo.fair) !! "PPLX_API_KEY" = Some "pplx-0000"
      /\ calls (Demo.started Demo.fair) = []
      /\ forall rqs, lifetime (X := Demo.world) Demo.key_set ∅ Demo.fair rqs
                     = Returned (serve (Demo.started Demo.fair) rqs)).
Proof.
  split.
  - split; [reflexivity|].
    exact (proj2 (proj1 (missing_credential_is_fatal (X := Demo.world) ∅ ∅ Demo.fair)
                    (or_introl eq_refl))).
  - split; [reflexivity|]. split; [discriminate|]. split; [reflexivity|].
    refine (proj2 (proj2 (missing_credential_is_fatal (X := Demo.world)
                            Demo.key_set ∅ Demo.fair) "pplx-0000" eq_refl _)
              (Demo.started Demo.fair) eq_refl).
    discriminate.
Defined.

(** C8 as stated fails for a key that is present but empty: the module
    body raises all the same and the process serves nothing. *)
Lemma empty_credential_is_fatal :
  os_getenv (load_dotenv Demo.fair Demo.key_empty) "PPLX_API_KEY" = Some EmptyString
  /\ main_module (X := Demo.world) Demo.key_empty ∅ Demo.fair = Raised missing_key_error
  /\ forall rqs,
       lifetime (X := Demo.world) Demo.key_empty ∅ Demo.fair rqs = Raised missing_key_error.
Proof. repeat split. Qed.

Lemma search_underfill_witness :
  let index :=
    (VectorIndex.add Demo.embed embedding_function []
       [ {| page_content := "alpha"; metadata := ∅ |};
         {| page_content := "be"; metadata := ∅ |} ]).1 in
  length index = 2
  /\ 2 < 3
  /\ length (VectorIndex.search Demo.embed Demo.vector_distance embedding_function
               index "ab" 3) = 2.
Proof.
  cbv zeta. split; [reflexivity|]. split; [lia|].
  apply (proj1 (proj2 (search_underfill Demo.embed Demo.vector_distance embedding_function
                         _ "ab" 3)) 2); [reflexivity | lia].
Defined.

(** The nearest entry comes first. *)
Example search_ranks_closest_first :
  map fst
    (map fst
       (VectorIndex.search Demo.embed Demo.vector_distance embedding_function
          (VectorIndex.add Demo.embed embedding_function []
             [ {| page_content := "alpha"; metadata := ∅ |};
               {| page_content := "be"; metadata := ∅ |};
               {| page_content := "gamma delta"; metadata := ∅ |} ]).1
          "ab" 2))
  = ["be"; "alpha"].
Proof. reflexivity. Qed.

Lemma chunker_edge_cases_witness :
  let units := ["aa"; "bbbb"; "cccc"] in
  (length (Demo.sentences "Hello") <= 1
   /\ Chunker.chunk Demo.sentences Demo.text_distance Demo.threshold (join ".")
        Chunker.Percentile "Hello" = ["Hello"])
  /\ (units !! 1 = Some "bbbb" /\ units !! 2 = Some "cccc"
      /\ (Demo.text_distance "bbbb" "cccc" <= 0)%Q
      /\ ~ In 2 (Chunker.boundaries (Chunker.groups Demo.text_distance 0 units)))
  /\ (units !! 0 = Some "aa" /\ units !! 1 = Some "bbbb"
      /\ (0 < Demo.text_distance "aa" "bbbb")%Q
      /\ In 1 (Chunker.boundaries (Chunker.groups Demo.text_distance 0 units))).
Proof.
  cbv zeta.
  pose proof (chunker_edge_cases Demo.sentences Demo.text_distance Demo.threshold (join ".")
                Chunker.Percentile "Hello") as (H1 & _ & H3).
  assert (length (Demo.sentences "Hello") <= 1) as Hone by (vm_compute; lia).
  assert (Demo.text_distance "bbbb" "cccc" <= 0)%Q as Htie by (vm_compute; discriminate).
  assert (0 < Demo.text_distance "aa" "bbbb")%Q as Hfar by reflexivity.
  split; [exact (conj Hone (H1 Hone))|].
  split.
  - do 2 (split; [reflexivity|]). split; [exact Htie|].
    exact (proj2 (H3 0%Q ["aa"; "bbbb"; "cccc"] 1 "bbbb" "cccc" eq_refl eq_refl) Htie).
  - do 2 (split; [reflexivity|]). split; [exact Hfar|].
    exact (proj2 (proj1 (H3 0%Q ["aa"; "bbbb"; "cccc"] 0 "aa" "bbbb" eq_refl eq_refl)) Hfar).
Defined.

(** Two sentences of different length are split, equal ones are kept
    together. *)
Example chunk_splits_at_breakpoint :
  Chunker.chunk Demo.sentences Demo.text_distance Demo.threshold (join ".")
    Chunker.Percentile "aa.bbbb.cccc" = ["aa"; "bbbb.cccc"].
Proof. reflexivity. Qed.

(** * Further properties of the handlers *)

(** ** Strings and paths *)

Lemma string_app_assoc (a b c : string) : ((a ++ b) ++ c = a ++ (b ++ c))%string.
Proof.
  induction a as [|x a IH]; [done|].
  change (String x ((a ++ b) ++ c) = String x (a ++ b ++ c)). by rewrite IH.
Qed.

Lemma string_app_nil_r (a : string) : (a ++ EmptyString)%string = a.
Proof.
  induction a as [|x a IH]; [done|].
  change (String x (a ++ EmptyString) = String x a). by rewrite IH.
Qed.

(** No name ends in both suffixes. *)
Lemma suffixes_exclusive s : endswith s ".pdf" = true -> endswith s ".docx" = false.
Proof.
  induction s as [|a s IH]; [discriminate|].
  rewrite (endswith_unfold (String a s) ".pdf"), (endswith_unfold (String a s) ".docx").
  destruct (String.eqb_spec (String a s) ".pdf") as [[= -> ->]|Hpdf]; [reflexivity|].
  destruct (String.eqb_spec (String a s) ".docx") as [[= -> ->]|Hdocx]; [discriminate|].
  exact IH.
Qed.

Lemma upload_path_injective a b :
  os_path_join UPLOAD_DIR a = os_path_join UPLOAD_DIR b -> a = b.
Proof.
  destruct (startswith a "/") eqn:Ha, (startswith b "/") eqn:Hb.
  - by rewrite !upload_path_absolute.
  - rewrite (upload_path_absolute a Ha), (upload_path_relative b Hb).
    intros ->. discriminate.
  - rewrite (upload_path_relative a Ha), (upload_path_absolute b Hb).
    intros <-. discriminate.
  - rewrite (upload_path_relative a Ha), (upload_path_relative b Hb).
    intros H. by apply (inj (String.append _)) in H.
Qed.

Lemma occurs_refl s : occurs s s.
Proof.
  exists EmptyString, EmptyString.
  change (s = (s ++ EmptyString)%string). by rewrite string_app_nil_r.
Qed.

Lemma occurs_inside t s before after :
  occurs t s -> occurs t (before ++ s ++ after)%string.
Proof.
  intros (b & a & ->). exists (before ++ b)%string, (a ++ after)%string.
  by rewrite !string_app_assoc.
Qed.

(** Every part of a joined text occurs in it. *)
Lemma join_occurs sep parts t : In t parts -> occurs t (join sep parts).
Proof.
  induction parts as [|p [|q rest] IH]; [done | |].
  - intros [<-|[]]. apply occurs_refl.
  - intros [<-|Hin].
    + exists EmptyString, (sep ++ join sep (q :: rest))%string. reflexivity.
    + change (join sep (p :: q :: rest)) with (p ++ sep ++ join sep (q :: rest))%string.
      destruct (IH Hin) as (b & a & ->).
      exists (p ++ sep ++ b)%string, a. by rewrite !string_app_assoc.
Qed.

(** ** Upload, stage by stage *)

Section UploadProperties.

Context {E Coll : Type} {X : Externals E Coll}.

Implicit Types (p : @Process E Coll).

(** What loading, chunking and indexing do to the process, however far
    they get. *)
Lemma ingest_shape loader path p1 :
  let out := bind (load loader path) chunk_and_index p1 in
  disk out.2 = disk p1
  /\ environ out.2 = environ p1
  /\ (forall r, out.1 = Returned r -> exists n, r = UploadSuccess n)
  /\ exists later,
       calls out.2 = calls p1 ++ CallLoad loader path :: later
       /\ (forall c, In c later ->
             (exists ts d, c = CallSplitDocuments ts d)
             \/ (exists e d, c = CallAddDocuments e d))
       /\ ((forall e d, ~ In (CallAddDocuments e d) later) ->
           vector_store out.2 = vector_store p1).
Proof.
  cbv zeta. unfold bind, load.
  destruct (loader_load _ _ _ _) as [[documents|e] w1]; simpl.
  - rewrite chunk_and_index_unfold. cbv zeta. simpl.
    destruct (split_documents _ _ _) as [[chunks|e] w2]; simpl.
    + destruct (add_documents _ _ _ _) as [[r c] w3].
      assert (forall A (o : Outcome A * Process),
                o.2 = with_collection
                        (crossed (crossed (crossed p1 (CallLoad loader path) w1)
                           (CallSplitDocuments
                              {| embeddings := embedding_function;
                                 breakpoint_threshold_type := "percentile" |} documents) w2)
                           (CallAddDocuments (chroma_embedding_function (vector_store p1))
                              chunks) w3) c ->
                disk o.2 = disk p1 /\ environ o.2 = environ p1
                /\ exists later,
                     calls o.2 = calls p1 ++ CallLoad loader path :: later
                     /\ (forall c0, In c0 later ->
                           (exists ts d, c0 = CallSplitDocuments ts d)
                           \/ (exists e d, c0 = CallAddDocuments e d))
                     /\ ((forall e d, ~ In (CallAddDocuments e d) later) ->
                         vector_store o.2 = vector_store p1)) as Hboth.
      { intros A o ->. simpl. do 2 (split; [done|]).
        eexists. rewrite <- !app_assoc. simpl. split; [reflexivity|]. split.
        - intros c0 [<-|[<-|[]]]; eauto.
        - intros Hno. exfalso. eapply Hno. right. left. reflexivity. }
      destruct r as [[]|e]; simpl.
      * destruct (Hboth _ (Returned (UploadSuccess (length chunks)), _) eq_refl)
          as (Hd & He & Hl).
        repeat split; try done. intros r [= <-]. eauto.
      * destruct (Hboth _ (@Raised UploadResponse e, _) eq_refl) as (Hd & He & Hl).
        repeat split; try done.
    + do 2 (split; [done|]). split; [by intros r [=]|].
      eexists. rewrite <- !app_assoc. simpl. split; [reflexivity|]. split.
      * intros c0 [<-|[]]; eauto.
      * done.
  - do 2 (split; [done|]). split; [by intros r [=]|].
    exists []. split; [reflexivity|]. split; [by intros c0 []|done].
Qed.

(** The upload handler in full: what it answers, calls and changes, by
    the outcome of the save and by the suffix of the name. *)
Lemma upload_shape upload p :
  let path := os_path_join UPLOAD_DIR (filename upload) in
  let out := upload_document upload p in
  environ out.2 = environ p
  /\ match (copy_to_file (outside p) path (file upload)).1 with
     | Saved =>
         disk out.2 = <[path := file upload]> (disk p)
         /\ ((endswith (filename upload) ".pdf" = false
              /\ endswith (filename upload) ".docx" = false
              /\ out.1 = Returned (UploadError "Unsupported file format")
              /\ calls out.2 = calls p ++ [CallOpenWrite path (file upload)]
              /\ vector_store out.2 = vector_store p)
             \/ (exists loader later,
                   ((loader = PyPDFLoader /\ endswith (filename upload) ".pdf" = true)
                    \/ (loader = Docx2txtLoader
                        /\ endswith (filename upload) ".pdf" = false
                        /\ endswith (filename upload) ".docx" = true))
                   /\ calls out.2 =
                      calls p ++ CallOpenWrite path (file upload) :: CallLoad loader path :: later
                   /\ (forall c, In c later ->
                         (exists ts d, c = CallSplitDocuments ts d)
                         \/ (exists e d, c = CallAddDocuments e d))
                   /\ ((forall e d, ~ In (CallAddDocuments e d) later) ->
                       vector_store out.2 = vector_store p)
                   /\ (forall r, out.1 = Returned r -> exists n, r = UploadSuccess n)))
     | SaveFailed e part =>
         out.1 = Returned (UploadError ("Failed to save file: " ++ exn_str e))
         /\ calls out.2 = calls p ++ [CallOpenWrite path (file upload)]
         /\ vector_store out.2 = vector_store p
         /\ disk out.2 = match part with
                         | None => disk p
                         | Some written => <[path := written]> (disk p)
                         end
     end.
Proof.
  cbv zeta. rewrite upload_document_unfold. cbv zeta.
  set (path := os_path_join UPLOAD_DIR (filename upload)).
  destruct (copy_to_file _ _ _) as [[|e [part|]] w]; simpl; [|done|done].
  set (p1 := with_disk _ _).
  assert (forall loader,
    (loader = PyPDFLoader /\ endswith (filename upload) ".pdf" = true)
    \/ (loader = Docx2txtLoader /\ endswith (filename upload) ".pdf" = false
        /\ endswith (filename upload) ".docx" = true) ->
    let out := bind (load loader path) chunk_and_index p1 in
    environ out.2 = environ p
    /\ disk out.2 = <[path := file upload]> (disk p)
    /\ exists loader later,
         ((loader = PyPDFLoader /\ endswith (filename upload) ".pdf" = true)
          \/ (loader = Docx2txtLoader /\ endswith (filename upload) ".pdf" = false
              /\ endswith (filename upload) ".docx" = true))
         /\ calls out.2 =
            calls p ++ CallOpenWrite path (file upload) :: CallLoad loader path :: later
         /\ (forall c, In c later ->
               (exists ts d, c = CallSplitDocuments ts d)
               \/ (exists e d, c = CallAddDocuments e d))
         /\ ((forall e d, ~ In (CallAddDocuments e d) later) ->
             vector_store out.2 = vector_store p)
         /\ (forall r, out.1 = Returned r -> exists n, r = UploadSuccess n)) as Hl.
  { intros loader Hloader. cbv zeta.
    destruct (ingest_shape loader path p1) as (Hd & He & Hr & later & Hc & Hs & Hv).
    split; [by rewrite He|]. split; [by rewrite Hd|].
    exists loader, later. split; [exact Hloader|].
    split; [rewrite Hc; simpl; by rewrite <- app_assoc|].
    split; [exact Hs|]. split; [exact Hv|exact Hr]. }
  destruct (endswith (filename upload) ".pdf") eqn:Hpdf.
  { destruct (Hl PyPDFLoader) as (He & Hd & Hrest); [by left|]. by repeat split; try right. }
  destruct (endswith (filename upload) ".docx") eqn:Hdocx.
  { destruct (Hl Docx2txtLoader) as (He & Hd & Hrest); [by right|].
    by repeat split; try right. }
  simpl. repeat split. by left.
Qed.

(** X1. After a successful save the upload handler loads the file at
    most once, from the path it was saved at, and the loader follows the
    suffix of the client's file name alone: the PDF loader exactly for
    names of the form [<prefix>.pdf], the DOCX loader exactly for names
    of the form [<prefix>.docx], and no loader for any other name. *)
Theorem upload_loader_by_suffix upload p :
  let path := os_path_join UPLOAD_DIR (filename upload) in
  (copy_to_file (outside p) path (file upload)).1 = Saved ->
  exists later,
    calls (upload_document upload p).2 = calls p ++ CallOpenWrite path (file upload) :: later
    /\ (forall loader path',
          In (CallLoad loader path') later ->
          path' = path
          /\ (loader = PyPDFLoader <->
                exists prefix, filename upload = (prefix ++ ".pdf")%string)
          /\ (loader = Docx2txtLoader <->
                exists prefix, filename upload = (prefix ++ ".docx")%string))
    /\ ((exists loader, In (CallLoad loader path) later) <->
        exists prefix, filename upload = (prefix ++ ".pdf")%string
                       \/ filename upload = (prefix ++ ".docx")%string)
    /\ length (List.filter (fun c => match c with CallLoad _ _ => true | _ => false end) later)
       <= 1.
Proof.
  cbv zeta. intros Hsaved.
  destruct (upload_shape upload p) as [_ Hshape]. cbv zeta in Hshape.
  rewrite Hsaved in Hshape.
  destruct Hshape as [_ [(Hpdf & Hdocx & _ & Hcalls & _) | Hingest]].
  - exists []. split; [exact Hcalls|]. split; [by intros loader path' []|]. split; [|simpl; lia].
    split; [by intros [loader []]|].
    intros [prefix [H|H]].
    + assert (endswith (filename upload) ".pdf" = true) by (apply endswith_app; eauto).
      congruence.
    + assert (endswith (filename upload) ".docx" = true) by (apply endswith_app; eauto).
      congruence.
  - destruct Hingest as (loader & later & Hloader & Hcalls & Hlater & _ & _).
    exists (CallLoad loader (os_path_join UPLOAD_DIR (filename upload)) :: later).
    split; [exact Hcalls|].
    assert (forall l path', ~ In (CallLoad l path') later) as Hnoload.
    { intros l path' [(ts & d & [=]) | (e & d & [=])]%Hlater. }
    assert ((loader = PyPDFLoader <->
               exists prefix, filename upload = (prefix ++ ".pdf")%string)
            /\ (loader = Docx2txtLoader <->
                  exists prefix, filename upload = (prefix ++ ".docx")%string)) as Hiff.
    { rewrite <- !endswith_app.
      destruct Hloader as [[-> Hpdf] | (-> & Hpdf & Hdocx)].
      - rewrite Hpdf, (suffixes_exclusive _ Hpdf). by split.
      - rewrite Hpdf, Hdocx. by split. }
    split; [|split].
    + intros l path' [[= <- <-] | Hin]; [by split | by apply Hnoload in Hin].
    + split.
      * intros _. destruct Hloader as [[_ Hpdf] | (_ & _ & Hdocx)].
        -- apply endswith_app in Hpdf as [prefix Hp]. eauto.
        -- apply endswith_app in Hdocx as [prefix Hp]. eauto.
      * intros _. exists loader. by left.
    + simpl. assert (List.filter
        (fun c => match c with CallLoad _ _ => true | _ => false end) later = []) as ->.
      { clear -Hnoload. induction later as [|c later IH]; [done|]. simpl.
        destruct c; try (apply IH; intros l path' Hin; eapply Hnoload; right; exact Hin).
        exfalso. eapply Hnoload. left. reflexivity. }
      simpl. lia.
Qed.

(** X3. The upload handler has no clean-up: when it raises, the raw file
    was saved under a supported suffix and is still on disk, and the
    request is answered with status 500.  If the failure came before the
    store was called, the store is as it was. *)
Theorem upload_raise_keeps_file upload p e :
  let path := os_path_join UPLOAD_DIR (filename upload) in
  let out := upload_document upload p in
  out.1 = Raised e ->
  handle (PostUpload upload) p = (InternalServerError e, out.2)
  /\ (copy_to_file (outside p) path (file upload)).1 = Saved
  /\ (exists prefix, filename upload = (prefix ++ ".pdf")%string
                     \/ filename upload = (prefix ++ ".docx")%string)
  /\ disk out.2 !! path = Some (file upload)
  /\ exists later,
       calls out.2 = calls p ++ later
       /\ ((forall embedder chunks, ~ In (CallAddDocuments embedder chunks) later) ->
           vector_store out.2 = vector_store p).
Proof.
  cbv zeta. intros Hraise.
  split.
  { simpl. destruct (upload_document upload p) as [r p']. simpl in Hraise. by subst r. }
  destruct (upload_shape upload p) as [_ Hshape]. cbv zeta in Hshape.
  destruct (copy_to_file _ _ _).1 as [|e' part].
  - destruct Hshape as [Hdisk [(_ & _ & Hr & _) | Hingest]]; [congruence|].
    destruct Hingest as (loader & later & Hloader & Hcalls & _ & Hv & _).
    split; [done|]. split; [|split].
    + destruct Hloader as [[_ Hs] | (_ & _ & Hs)];
        apply endswith_app in Hs as [prefix Hp]; eauto.
    + by rewrite Hdisk, lookup_insert_eq.
    + eexists. split; [exact Hcalls|].
      intros Hno. apply Hv. intros emb d Hin. eapply Hno. right. right. exact Hin.
  - destruct Hshape as (Hr & _). congruence.
Qed.

End UploadProperties.

(** ** Chat, stage by stage *)

(** The prompt is the fixed text of the template around the context and
    the question. *)
Lemma prompt_for_shape :
  exists before between after,
    forall context_text user_question,
      prompt_for context_text user_question
      = (before ++ context_text ++ between ++ user_question ++ after)%string.
Proof.
  do 3 eexists. intros context_text user_question.
  unfold prompt_for, template. cbn [format_prompt].
  rewrite lookup_insert_eq.
  rewrite lookup_insert_ne by discriminate. rewrite lookup_insert_eq.
  reflexivity.
Qed.

Lemma invocations_app cs1 cs2 :
  invocations (cs1 ++ cs2) = invocations cs1 + invocations cs2.
Proof. unfold invocations. by rewrite List.filter_app, length_app. Qed.

Section ChatProperties.

Context {E Coll : Type} {X : Externals E Coll}.

Implicit Types (p : @Process E Coll).

(** X6. A chat request only reads: whatever the search and the model do,
    the store, the disk and the environment are as before.  It calls out
    at most twice, first the search and then, only if the search
    returned, the model once. *)
Theorem chat_is_read_only request p :
  let out := chat_endpoint request p in
  let search :=
    CallSimilaritySearch (chroma_embedding_function (vector_store p)) (question request) 3 in
  vector_store out.2 = vector_store p
  /\ disk out.2 = disk p
  /\ environ out.2 = environ p
  /\ ((calls out.2 = calls p ++ [search] /\ exists e, out.1 = Raised e)
      \/ (exists results,
            calls out.2 =
              calls p ++
              [ search;
                CallInvoke llm
                  (prompt_for (join (LF ++ LF) (map page_content results))
                              (question request)) ]))
  /\ invocations (calls out.2) <= S (invocations (calls p)).
Proof.
  cbv zeta. rewrite chat_endpoint_unfold. cbv zeta.
  destruct (similarity_search _ _ _ _ _) as [[results|e] w1].
  - assert (forall w2,
      let p2 :=
        crossed (crossed p (CallSimilaritySearch
                              (chroma_embedding_function (vector_store p))
                              (question request) 3) w1)
                (CallInvoke llm
                   (prompt_for (join (LF ++ LF) (map page_content results))
                               (question request))) w2 in
      vector_store p2 = vector_store p /\ disk p2 = disk p /\ environ p2 = environ p
      /\ (exists results0,
            calls p2 =
              calls p ++
              [ CallSimilaritySearch (chroma_embedding_function (vector_store p))
                  (question request) 3;
                CallInvoke llm
                  (prompt_for (join (LF ++ LF) (map page_content results0))
                              (question request)) ])
      /\ invocations (calls p2) <= S (invocations (calls p))) as Hboth.
    { intros w2. simpl. do 3 (split; [done|]). split.
      - exists results. by rewrite <- app_assoc.
      - rewrite !invocations_app. unfold invocations. simpl. lia. }
    destruct (llm_invoke _ _ _) as [[answer|e] w2]; simpl;
      destruct (Hboth w2) as (Hv & Hd & He & Hc & Hi); auto 10.
  - simpl. do 3 (split; [done|]). split; [left; eauto|].
    rewrite invocations_app. unfold invocations. simpl. lia.
Qed.

(** X7. When the search of a chat request raises, the request ends
    there: it is answered with status 500 carrying that failure, the
    search is the only call made and the language model is not invoked. *)
Theorem chat_search_failure request p e w1 :
  similarity_search (outside p) (chroma_embedding_function (vector_store p))
    (collection (vector_store p)) (question request) 3 = (Raised e, w1) ->
  exists p',
    handle (PostChat request) p = (InternalServerError e, p')
    /\ calls p' =
         calls p ++
         [CallSimilaritySearch (chroma_embedding_function (vector_store p))
            (question request) 3]
    /\ invocations (calls p') = invocations (calls p)
    /\ outside p' = w1.
Proof.
  intros Hsearch. eexists. simpl. rewrite chat_endpoint_unfold. cbv zeta.
  rewrite Hsearch. simpl. split; [reflexivity|]. split; [reflexivity|].
  split; [|reflexivity]. simpl. rewrite invocations_app. unfold invocations. simpl. lia.
Qed.

End ChatProperties.

(** ** The whole life of a process, continued *)

Lemma quiet_invocations new :
  Forall (fun c => is_invoke c = false) new -> invocations new = 0.
Proof.
  unfold invocations. induction 1 as [|c new Hc _ IH]; [done|]. simpl. by rewrite Hc.
Qed.

Lemma grounded_nil : grounded [].
Proof. intros i l prompt_text Hi. by rewrite lookup_nil in Hi. Qed.

(** Calls other than invocations keep a log grounded. *)
Lemma grounded_app_quiet cs new :
  grounded cs -> Forall (fun c => is_invoke c = false) new -> grounded (cs ++ new).
Proof.
  intros Hg Hq i l prompt_text Hi.
  destruct (decide (i < length cs)) as [Hlt|Hge].
  - rewrite lookup_app_l in Hi by done.
    destruct (Hg _ _ _ Hi) as (j & e & q & c & -> & Hj & ->).
    exists j, e, q, c. split; [done|]. split; [|done].
    rewrite lookup_app_l by lia. exact Hj.
  - rewrite lookup_app_r in Hi by lia.
    apply list_elem_of_lookup_2 in Hi. rewrite Forall_forall in Hq.
    apply Hq in Hi. discriminate.
Qed.

(** So does a search followed by the invocation built from it. *)
Lemma grounded_app_chat cs embedder query context_text l :
  grounded cs ->
  grounded (cs ++ [ CallSimilaritySearch embedder query 3;
                    CallInvoke l (prompt_for context_text query) ]).
Proof.
  intros Hg i l' prompt_text Hi.
  destruct (decide (i < length cs)) as [Hlt|Hge].
  - rewrite lookup_app_l in Hi by done.
    destruct (Hg _ _ _ Hi) as (j & e & q & c & -> & Hj & ->).
    exists j, e, q, c. split; [done|]. split; [|done].
    rewrite lookup_app_l by lia. exact Hj.
  - rewrite lookup_app_r in Hi by lia.
    destruct (i - length cs) as [|[|k]] eqn:Hk; simpl in Hi; try discriminate.
    injection Hi as <- <-.
    exists (length cs), embedder, query, context_text.
    split; [lia|]. split; [|done].
    rewrite lookup_app_r by lia. by rewrite Nat.sub_diag.
Qed.

Section LifetimeProperties.

Context {E Coll : Type} {X : Externals E Coll}.

Implicit Types (p : @Process E Coll).

(** An upload makes no call to the language model. *)
Lemma upload_quiet upload p :
  exists new,
    calls (upload_document upload p).2 = calls p ++ new
    /\ Forall (fun c => is_invoke c = false) new.
Proof.
  destruct (upload_shape upload p) as [_ Hshape]. cbv zeta in Hshape.
  destruct (copy_to_file _ _ _).1 as [|e part].
  - destruct Hshape as [_ [(_ & _ & _ & Hcalls & _) | Hingest]].
    + eexists. split; [exact Hcalls|]. by repeat constructor.
    + destruct Hingest as (loader & later & _ & Hcalls & Hlater & _).
      eexists. split; [exact Hcalls|]. do 2 (constructor; [done|]).
      apply Forall_forall. intros c Hc%list_elem_of_In.
      by destruct (Hlater c Hc) as [(ts & d & ->) | (e & d & ->)].
  - destruct Hshape as (_ & Hcalls & _). eexists. split; [exact Hcalls|].
    by repeat constructor.
Qed.

(** One request: what it may cost and what it keeps. *)
Lemma handle_step rq p :
  let out := handle rq p in
  environ out.2 = environ p
  /\ dom (disk p) ⊆ dom (disk out.2)
  /\ invocations (calls p) + (if is_answer out.1 then 1 else 0) <= invocations (calls out.2)
  /\ invocations (calls out.2) <= invocations (calls p) + (if is_chat rq then 1 else 0)
  /\ (grounded (calls p) -> grounded (calls out.2)).
Proof.
  cbv zeta. destruct rq as [upload|request]; simpl.
  - destruct (upload_shape upload p) as [Henv Hshape]. cbv zeta in Hshape.
    destruct (upload_quiet upload p) as (new & Hcalls & Hquiet).
    assert (dom (disk p) ⊆ dom (disk (upload_document upload p).2)) as Hdom.
    { destruct (copy_to_file _ _ _).1 as [|e part].
      - destruct Hshape as [-> _]. apply dom_insert_subseteq.
      - destruct Hshape as (_ & _ & _ & ->).
        destruct part; [apply dom_insert_subseteq | reflexivity]. }
    assert (invocations (calls (upload_document upload p).2) = invocations (calls p)) as Hinv.
    { rewrite Hcalls, invocations_app, (quiet_invocations _ Hquiet). lia. }
    assert (grounded (calls p) -> grounded (calls (upload_document upload p).2)) as Hg.
    { intros Hg. rewrite Hcalls. by apply grounded_app_quiet. }
    destruct (upload_document upload p) as [[r|e] p']; simpl in *;
      repeat split; try done; lia.
  - rewrite chat_endpoint_unfold. cbv zeta.
    destruct (similarity_search _ _ _ _ _) as [[results|e] w1]; simpl.
    + assert (forall w2,
        let cs := calls (crossed (crossed p
                     (CallSimilaritySearch (chroma_embedding_function (vector_store p))
                        (question request) 3) w1)
                     (CallInvoke llm
                        (prompt_for (join (LF ++ LF) (map page_content results))
                                    (question request))) w2) in
        invocations cs = S (invocations (calls p))
        /\ (grounded (calls p) -> grounded cs)) as Hboth.
      { intros w2. simpl. rewrite <- app_assoc. simpl. split.
        - rewrite invocations_app. unfold invocations. simpl. lia.
        - apply grounded_app_chat. }
      destruct (llm_invoke _ _ _) as [[answer|e] w2]; simpl;
        destruct (Hboth w2) as [Hinv Hg]; simpl in Hinv, Hg;
        repeat split; try done; lia.
    + repeat split; try done.
      * rewrite invocations_app. unfold invocations. simpl. lia.
      * rewrite invocations_app. unfold invocations. simpl. lia.
      * intros Hg. apply grounded_app_quiet; [done | by repeat constructor].
Qed.

(** Any number of requests. *)
Lemma serve_steps rqs : forall p,
  let out := serve p rqs in
  environ out.2 = environ p
  /\ dom (disk p) ⊆ dom (disk out.2)
  /\ invocations (calls p) + length (List.filter is_answer out.1)
     <= invocations (calls out.2)
  /\ invocations (calls out.2) <= invocations (calls p) + length (List.filter is_chat rqs)
  /\ (grounded (calls p) -> grounded (calls out.2)).
Proof.
  induction rqs as [|rq rest IH]; intros p; cbv zeta.
  { simpl. repeat split; try done; lia. }
  cbn [serve].
  destruct (handle_step rq p) as (He & Hd & Hlo & Hhi & Hg). cbv zeta in *.
  destruct (handle rq p) as [r p1]. simpl in He, Hd, Hlo, Hhi, Hg.
  destruct (IH p1) as (He' & Hd' & Hlo' & Hhi' & Hg'). cbv zeta in *.
  destruct (serve p1 rest) as [rs p2]. simpl in *.
  split; [congruence|]. split; [by etrans|].
  split; [destruct (is_answer r); simpl; lia|].
  split; [destruct (is_chat rq); simpl; lia|]. auto.
Qed.

(** What the module body hands to the first request. *)
Lemma main_module_started environ0 disk0 w0 p :
  main_module environ0 disk0 w0 = Returned p ->
  exists key,
    key <> EmptyString
    /\ os_getenv (load_dotenv w0 environ0) "PPLX_API_KEY" = Some key
    /\ environ p = load_dotenv w0 environ0
    /\ disk p = disk0
    /\ calls p = [].
Proof.
  unfold main_module.
  destruct (os_getenv (load_dotenv w0 environ0) "PPLX_API_KEY") as [key|] eqn:Hkey;
    [|discriminate].
  destruct key as [|a key]; [discriminate|]. simpl.
  unfold set_up, step. intros H.
  repeat case_match; try discriminate. injection H as <-. simpl.
  exists (String a key). repeat split; try done.
  by apply insert_id.
Qed.

(** X9. Over the life of a process every request is answered, no request
    invokes the language model more than once and uploads never invoke
    it: the invocations number at most the chat requests, and at least
    the chat requests that were answered. *)
Theorem lifetime_llm_budget environ0 disk0 w0 rqs rs p :
  lifetime environ0 disk0 w0 rqs = Returned (rs, p) ->
  length rs = length rqs
  /\ length (List.filter is_answer rs) <= invocations (calls p)
  /\ invocations (calls p) <= length (List.filter is_chat rqs).
Proof.
  unfold lifetime. destruct (main_module _ _ _) as [p0|e] eqn:Hm; [|discriminate].
  intros [= Hs]. apply main_module_started in Hm as (key & _ & _ & _ & _ & Hcalls).
  pose proof (serve_length rqs p0) as Hlen.
  destruct (serve_steps rqs p0) as (_ & _ & Hlo & Hhi & _). cbv zeta in *.
  rewrite Hs in Hlen, Hlo, Hhi. rewrite Hcalls in Hlo, Hhi. simpl in *.
  unfold invocations in Hlo, Hhi at 1. simpl in *. repeat split; try done; lia.
Qed.

(** X10. No request changes the environment or removes a file: at any
    point of its life the process has the environment [load_dotenv()]
    gave it, with its non-empty key, and every path that was on disk at
    start-up is still there. *)
Theorem lifetime_environment_and_disk environ0 disk0 w0 rqs rs p :
  lifetime environ0 disk0 w0 rqs = Returned (rs, p) ->
  environ p = load_dotenv w0 environ0
  /\ (exists key, key <> EmptyString /\ environ p !! "PPLX_API_KEY" = Some key)
  /\ dom disk0 ⊆ dom (disk p).
Proof.
  unfold lifetime. destruct (main_module _ _ _) as [p0|e] eqn:Hm; [|discriminate].
  intros [= Hs]. apply main_module_started in Hm as (key & Hne & Hkey & Henv & Hdisk & _).
  destruct (serve_steps rqs p0) as (He & Hd & _). cbv zeta in *.
  rewrite Hs in He, Hd. simpl in *.
  split; [congruence|]. split; [|by rewrite <- Hdisk].
  exists key. split; [done|]. rewrite He, Henv. exact Hkey.
Qed.

(** X11. Retrieval always comes first: in the log of a process every
    invocation of the language model is immediately preceded by a search
    for three results, and its prompt is the template filled with the
    query of that very search. *)
Theorem lifetime_invocations_grounded environ0 disk0 w0 rqs rs p :
  lifetime environ0 disk0 w0 rqs = Returned (rs, p) ->
  forall i l prompt_text,
    calls p !! i = Some (CallInvoke l prompt_text) ->
    exists j embedder query context_text,
      i = S j
      /\ calls p !! j = Some (CallSimilaritySearch embedder query 3)
      /\ prompt_text = prompt_for context_text query.
Proof.
  unfold lifetime. destruct (main_module _ _ _) as [p0|e] eqn:Hm; [|discriminate].
  intros [= Hs]. apply main_module_started in Hm as (key & _ & _ & _ & _ & Hcalls).
  destruct (serve_steps rqs p0) as (_ & _ & _ & _ & Hg). cbv zeta in *.
  rewrite Hs, Hcalls in Hg. simpl in Hg. exact (Hg grounded_nil).
Qed.

(** X12. Every search of a process asks for three results and every
    invocation goes to the one language model built at start-up,
    [sonar-pro]. *)
Theorem lifetime_search_and_model environ0 disk0 w0 rqs rs p :
  lifetime environ0 disk0 w0 rqs = Returned (rs, p) ->
  (forall embedder query k, In (CallSimilaritySearch embedder query k) (calls p) -> k = 3)
  /\ (forall l prompt_text,
        In (CallInvoke l prompt_text) (calls p) -> l = llm /\ model l = "sonar-pro").
Proof.
  intros Hsound%lifetime_sound. split.
  - intros embedder query k H%(wired_in _ _ Hsound). apply H.
  - intros l prompt_text H%(wired_in _ _ Hsound). simpl in H. by subst.
Qed.

End LifetimeProperties.

(** ** The further properties at work *)

Lemma upload_loader_by_suffix_witness :
  let p := Demo.started Demo.fair in
  (copy_to_file (outside p) "uploaded_files/report.pdf" (file Demo.report_pdf)).1 = Saved
  /\ exists later,
       calls (upload_document (X := Demo.world) Demo.report_pdf p).2
       = calls p ++ CallOpenWrite "uploaded_files/report.pdf" (file Demo.report_pdf) :: later
       /\ exists loader, In (CallLoad loader "uploaded_files/report.pdf") later.
Proof.
  cbv zeta. split; [reflexivity|].
  destruct (upload_loader_by_suffix (X := Demo.world) Demo.report_pdf
              (Demo.started Demo.fair) eq_refl) as (later & Hcalls & _ & Hiff & _).
  exists later. split; [exact Hcalls|].
  apply Hiff. exists "report". by left.
Defined.

Lemma upload_raise_keeps_file_witness :
  let p := Demo.started Demo.fair in
  let out := upload_document (X := Faults.world) Faults.blank_pdf p in
  out.1 = Raised Faults.unreadable
  /\ handle (X := Faults.world) (PostUpload Faults.blank_pdf) p
     = (InternalServerError Faults.unreadable, out.2)
  /\ disk out.2 !! "uploaded_files/blank.pdf" = Some []
  /\ vector_store out.2 = vector_store p.
Proof.
  cbv zeta. split; [reflexivity|].
  destruct (upload_raise_keeps_file (X := Faults.world) Faults.blank_pdf
              (Demo.started Demo.fair) Faults.unreadable eq_refl)
    as (Hh & _ & _ & Hdisk & _).
  split; [exact Hh|]. split; [exact Hdisk|]. reflexivity.
Defined.

Lemma chat_search_failure_witness :
  let p := Demo.started Demo.fair in
  similarity_search (Externals := Faults.world) (outside p)
    (chroma_embedding_function (vector_store p)) (collection (vector_store p))
    (question Demo.ask) 3 = (Raised Faults.nothing_indexed, Demo.fair)
  /\ exists p',
       handle (X := Faults.world) (PostChat Demo.ask) p
       = (InternalServerError Faults.nothing_indexed, p')
       /\ invocations (calls p') = invocations (calls p).
Proof.
  cbv zeta. split; [reflexivity|].
  destruct (chat_search_failure (X := Faults.world) Demo.ask (Demo.started Demo.fair)
              Faults.nothing_indexed Demo.fair eq_refl) as (p' & Hh & _ & Hi & _).
  exists p'. by split.
Defined.

Lemma lifetime_llm_budget_witness :
  let rqs := [PostUpload Demo.report_pdf; PostChat Demo.ask] in
  let out := serve (X := Demo.world) (Demo.started Demo.fair) rqs in
  lifetime (X := Demo.world) Demo.key_set ∅ Demo.fair rqs = Returned (out.1, out.2)
  /\ length out.1 = 2
  /\ length (List.filter is_answer out.1) <= invocations (calls out.2)
  /\ invocations (calls out.2) <= 1.
Proof.
  cbv zeta. split; [exact demo_lifetime|].
  exact (lifetime_llm_budget (X := Demo.world) _ _ _ _ _ _ demo_lifetime).
Defined.

Lemma lifetime_environment_and_disk_witness :
  let rqs := [PostUpload Demo.report_pdf; PostChat Demo.ask] in
  let out := serve (X := Demo.world) (Demo.started Demo.fair) rqs in
  lifetime (X := Demo.world) Demo.key_set ∅ Demo.fair rqs = Returned (out.1, out.2)
  /\ environ out.2 = Demo.key_set.
Proof.
  cbv zeta. split; [exact demo_lifetime|].
  exact (proj1 (lifetime_environment_and_disk (X := Demo.world) _ _ _ _ _ _ demo_lifetime)).
Defined.

Lemma lifetime_invocations_grounded_witness :
  let rqs := [PostUpload Demo.report_pdf; PostChat Demo.ask] in
  let out := serve (X := Demo.world) (Demo.started Demo.fair) rqs in
  lifetime (X := Demo.world) Demo.key_set ∅ Demo.fair rqs = Returned (out.1, out.2)
  /\ (exists l prompt_text, calls out.2 !! 5 = Some (CallInvoke l prompt_text))
  /\ exists embedder query, calls out.2 !! 4 = Some (CallSimilaritySearch embedder query 3).
Proof.
  cbv zeta. split; [exact demo_lifetime|].
  split; [do 2 eexists; reflexivity|].
  destruct (lifetime_invocations_grounded (X := Demo.world) _ _ _ _ _ _ demo_lifetime
              5 _ _ eq_refl) as (j & embedder & query & context_text & [= <-] & Hj & _).
  by exists embedder, query.
Defined.

Lemma lifetime_search_and_model_witness :
  let rqs := [PostUpload Demo.report_pdf; PostChat Demo.ask] in
  let out := serve (X := Demo.world) (Demo.started Demo.fair) rqs in
  lifetime (X := Demo.world) Demo.key_set ∅ Demo.fair rqs = Returned (out.1, out.2)
  /\ (exists embedder query k, In (CallSimilaritySearch embedder query k) (calls out.2))
  /\ forall embedder query k,
       In (CallSimilaritySearch embedder query k) (calls out.2) -> k = 3.
Proof.
  cbv zeta. split; [exact demo_lifetime|].
  split; [do 3 eexists; vm_compute; do 4 right; left; reflexivity|].
  exact (proj1 (lifetime_search_and_model (X := Demo.world) _ _ _ _ _ _ demo_lifetime)).
Defined.

(** * Retries, paths, retrieval and strategies *)

(** ** The client retries by itself *)

(** Seven rate-limit answers in a row make the client give up; six do
    not. *)
Example client_gives_up_after_seven :
  Client.invoke Client.max_retries (replicate 7 Client.RateLimited)
  = (Raised (Client.error_of Client.RateLimited), [])
  /\ Client.invoke Client.max_retries
       (replicate 6 Client.RateLimited ++ [Client.Completed "late"])
     = (Returned "late", []).
Proof. split; reflexivity. Qed.

(** C1 as stated fails where the client's own retry overcomes the
    failure: the provider answers the first request of a chat with a
    rate-limit error and the second with a completion.  The request is
    answered normally; the failure is not surfaced, and the provider was
    asked again without the handler doing anything. *)
Lemma rate_limit_is_retried_not_surfaced :
  let script := [Client.RateLimited; Client.Completed "**Vitalyze.ai**"] in
  let out := handle (X := Client.world) (PostChat Demo.ask) (Client.started script) in
  out.1 = ChatJson {| response := "**Vitalyze.ai**"; source_docs := [] |}
  /\ (forall e, out.1 <> InternalServerError e)
  /\ outside (Client.started script) = script
  /\ outside out.2 = []
  /\ invocations (calls out.2) = 1.
Proof. cbv zeta. repeat split. intros e. discriminate. Qed.

(** ** Where the raw file goes *)

(** C9. The claim is right that the file is meant for the uploads
    directory, and the handler misses it: [os.path.join] lets the
    client's file name decide.  An upload named [/notes.txt] is rejected
    as unsupported with its body written at [/notes.txt] and nothing
    under [uploaded_files]; an upload named [../escape.txt] is written
    through [uploaded_files/../escape.txt], beside the directory. *)
Theorem upload_name_escapes_upload_dir :
  let absolute :=
    upload_document (X := Demo.world) Demo.slash_notes (Demo.started Demo.fair) in
  let climbing := upload_document (X := Demo.world) escape_txt (Demo.started Demo.fair) in
  absolute.1 = Returned (UploadError "Unsupported file format")
  /\ calls absolute.2 = [CallOpenWrite "/notes.txt" (file Demo.slash_notes)]
  /\ disk absolute.2 = {[ "/notes.txt" := file Demo.slash_notes ]}
  /\ disk absolute.2 !! "uploaded_files//notes.txt" = None
  /\ startswith (filename escape_txt) "/" = false
  /\ climbing.1 = Returned (UploadError "Unsupported file format")
  /\ calls climbing.2 = [CallOpenWrite "uploaded_files/../escape.txt" (file escape_txt)]
  /\ disk climbing.2 = {[ "uploaded_files/../escape.txt" := file escape_txt ]}.
Proof. cbv zeta. repeat split. Qed.

(** ** What a chat retrieves *)

Lemma join_concat sep parts : join sep parts = String.concat sep parts.
Proof.
  induction parts as [|p [|q rest] IH]; [done | done |].
  change (join sep (p :: q :: rest)) with (p ++ sep ++ join sep (q :: rest))%string.
  by rewrite IH.
Qed.

(** C10. A chat request asks the index for exactly three nearest chunks,
    once and first of all.  When it returns, the context of its prompt
    is the texts of the chunks the search returned, in that order, with
    two line feeds between one text and the next, and [source_docs] is
    the metadata of exactly those chunks in the same order.  On a store
    that is the Vector Index of the specification these are the three
    entries ranked closest, or all entries if the index holds fewer: at
    most three. *)
Theorem chat_retrieves_three {E Coll : Type} (X : Externals E Coll) request
    (p : @Process E Coll) :
  let emb := chroma_embedding_function (vector_store p) in
  let out := chat_endpoint request p in
  let blank_line := String "010"%char (String "010"%char EmptyString) in
  (exists later,
      calls out.2 = calls p ++ CallSimilaritySearch emb (question request) 3 :: later
      /\ forall e q k, ~ In (CallSimilaritySearch e q k) later)
  /\ (forall r, out.1 = Returned r ->
        exists results w1,
          similarity_search (outside p) emb (collection (vector_store p))
            (question request) 3 = (Returned results, w1)
          /\ calls out.2 =
               calls p ++
               [ CallSimilaritySearch emb (question request) 3;
                 CallInvoke llm
                   (prompt_for (String.concat blank_line (map page_content results))
                               (question request)) ]
          /\ source_docs r = map metadata results
          /\ length (source_docs r) = length results)
  /\ (forall (base : Externals E (list VectorIndex.IndexEntry))
             (embed : HuggingFaceEmbeddings -> string -> list Q)
             (distance : list Q -> list Q -> Q)
             (q : @Process E (list VectorIndex.IndexEntry)) request' r,
        (chat_endpoint (X := spec_store base embed distance) request' q).1 = Returned r ->
        source_docs r =
          map VectorIndex.entry_metadata
            (take 3 (VectorIndex.rank distance
                       (embed (chroma_embedding_function (vector_store q))
                              (question request'))
                       (collection (vector_store q))))
        /\ length (source_docs r) = Nat.min 3 (length (collection (vector_store q)))
        /\ length (source_docs r) <= 3).
Proof.
  cbv zeta. split; [|split].
  - rewrite chat_endpoint_unfold. cbv zeta.
    destruct (similarity_search _ _ _ _ _) as [[results|e] w1].
    + destruct (llm_invoke _ _ _) as [[answer|e] w2]; simpl;
        (eexists; rewrite <- app_assoc; split; [reflexivity|];
         intros e' q k [H|[]]; discriminate).
    + simpl. exists []. split; [reflexivity|]. by intros e' q k [].
  - rewrite chat_endpoint_unfold. cbv zeta.
    destruct (similarity_search _ _ _ _ _) as [[results|e] w1]; [|by intros r [=]].
    destruct (llm_invoke _ _ _) as [[answer|e] w2]; [|by intros r [=]].
    cbn [fst snd]. intros r [= <-]. exists results, w1.
    rewrite (join_concat (LF ++ LF)).
    split; [done|]. split; [simpl; by rewrite <- app_assoc|].
    split; [done|]. simpl. by rewrite length_map.
  - intros base embed distance q request' r.
    remember (Nat.min 3 (length (collection (vector_store q)))) as n eqn:Hn.
    rewrite chat_endpoint_unfold. cbv zeta. simpl.
    destruct (llm_invoke _ _ _) as [[answer|e] w2]; [|by intros [=]].
    simpl. intros [= <-]. simpl.
    assert (map metadata
              (map VectorIndex.as_document
                 (VectorIndex.search embed distance
                    (chroma_embedding_function (vector_store q))
                    (collection (vector_store q)) (question request') 3))
            = map VectorIndex.entry_metadata
                (take 3 (VectorIndex.rank distance
                           (embed (chroma_embedding_function (vector_store q))
                                  (question request'))
                           (collection (vector_store q))))) as ->.
    { unfold VectorIndex.search. by rewrite !map_map. }
    split; [done|]. rewrite length_map, length_take, rank_length. lia.
Qed.

Lemma chat_retrieves_three_witness :
  let blank_line := String "010"%char (String "010"%char EmptyString) in
  let p := (handle (X := Demo.world) (PostUpload Demo.report_pdf)
              (Demo.started Demo.fair)).2 in
  let out := chat_endpoint (X := spec_store Demo.world Demo.embed Demo.vector_distance)
               Demo.ask p in
  length (collection (vector_store p)) = 4
  /\ exists r,
       out.1 = Returned r
       /\ In (CallInvoke llm
                (prompt_for
                   ("The project name is Vitalyze" ++ blank_line ++
                    " It is an AI-powered health hub" ++ blank_line ++ "ai")
                   "What is the project name?"))
             (calls out.2)
       /\ length (source_docs r) = 3.
Proof.
  cbv zeta. split; [reflexivity|].
  pose proof (chat_retrieves_three (spec_store Demo.world Demo.embed Demo.vector_distance)
                Demo.ask
                (handle (X := Demo.world) (PostUpload Demo.report_pdf)
                   (Demo.started Demo.fair)).2) as (_ & Hreturn & Hindex).
  cbv zeta in Hreturn, Hindex.
  assert (exists r,
            (chat_endpoint (X := spec_store Demo.world Demo.embed Demo.vector_distance)
               Demo.ask
               (handle (X := Demo.world) (PostUpload Demo.report_pdf)
                  (Demo.started Demo.fair)).2).1 = Returned r) as [r Hr].
  { eexists. reflexivity. }
  exists r. split; [exact Hr|]. split.
  - destruct (Hreturn r Hr) as (results & w1 & Hsearch & Hcalls & _).
    vm_compute in Hsearch. injection Hsearch as <-.
    rewrite Hcalls. apply in_or_app. right. right. left. reflexivity.
  - exact (proj1 (proj2 (Hindex Demo.world Demo.embed Demo.vector_distance _ Demo.ask r Hr))).
Defined.

(** ** The threshold strategy of the chunker *)







(** ** The further properties, restated on what the handlers call *)

Section CallProperties.

Context {E Coll : Type} {X : Externals E Coll}.

Implicit Types (p : @Process E Coll).

(** X2. An upload returns success, or calls the loader, the chunker or
    the store at all, only if its raw file was saved and its name ends in
    [.pdf] or [.docx]; for every other upload the write of the raw file
    is the only call. *)
Theorem upload_reaches_store_only_supported upload p :
  let path := os_path_join UPLOAD_DIR (filename upload) in
  let out := upload_document upload p in
  exists later,
    calls out.2 = calls p ++ CallOpenWrite path (file upload) :: later
    /\ ((exists n, out.1 = Returned (UploadSuccess n)) \/ later <> [] ->
        (copy_to_file (outside p) path (file upload)).1 = Saved
        /\ (exists prefix, filename upload = (prefix ++ ".pdf")%string
                           \/ filename upload = (prefix ++ ".docx")%string)
        /\ exists loader, In (CallLoad loader path) later).
Proof.
  cbv zeta.
  destruct (upload_shape upload p) as [_ Hshape]. cbv zeta in Hshape.
  destruct (copy_to_file _ _ _).1 as [|e part].
  - destruct Hshape as [_ [(_ & _ & Hr & Hcalls & _) | Hingest]].
    + exists []. split; [exact Hcalls|]. intros [[n Hn] | Hne]; [congruence | done].
    + destruct Hingest as (loader & later & Hloader & Hcalls & _).
      eexists. split; [exact Hcalls|]. intros _.
      split; [done|]. split.
      * destruct Hloader as [[_ Hs] | (_ & _ & Hs)];
          apply endswith_app in Hs as [prefix Hp]; eauto.
      * exists loader. by left.
  - destruct Hshape as (Hr & Hcalls & _).
    exists []. split; [exact Hcalls|]. intros [[n Hn] | Hne]; [congruence | done].
Qed.

(** X4. The upload handler itself writes once, first of all: the whole
    body, at [os.path.join(UPLOAD_DIR, filename)].  An upload whose save
    succeeded and which is then rejected as unsupported makes no other
    call and leaves the body on disk at that path. *)
Theorem upload_writes_once upload p :
  let path := os_path_join UPLOAD_DIR (filename upload) in
  let out := upload_document upload p in
  exists later,
    calls out.2 = calls p ++ CallOpenWrite path (file upload) :: later
    /\ (forall path' body, ~ In (CallOpenWrite path' body) later)
    /\ ((copy_to_file (outside p) path (file upload)).1 = Saved ->
        endswith (filename upload) ".pdf" = false ->
        endswith (filename upload) ".docx" = false ->
        later = []
        /\ out.1 = Returned (UploadError "Unsupported file format")
        /\ disk out.2 !! path = Some (file upload)).
Proof.
  cbv zeta.
  destruct (upload_shape upload p) as [_ Hshape]. cbv zeta in Hshape.
  destruct (copy_to_file _ _ _).1 as [|e part].
  - destruct Hshape as [Hdisk [(_ & _ & Hr & Hcalls & _) | Hingest]].
    + exists []. split; [exact Hcalls|]. split; [by intros path' body []|].
      intros _ _ _. split; [done|]. split; [exact Hr|].
      by rewrite Hdisk, lookup_insert_eq.
    + destruct Hingest as (loader & later & Hloader & Hcalls & Hlater & _).
      eexists. split; [exact Hcalls|]. split.
      * intros path' body [[=] | [(ts & d & [=]) | (e & d & [=])]%Hlater].
      * intros _ Hpdf Hdocx. destruct Hloader as [[_ Hs] | (_ & _ & Hs)]; congruence.
  - destruct Hshape as (_ & Hcalls & _).
    exists []. split; [exact Hcalls|]. split; [by intros path' body []|]. discriminate.
Qed.

(** X8. When a chat request returns, the one prompt it sent contains the
    question and, verbatim, the full text of every chunk the search
    returned; the sources it reports are those of exactly these chunks. *)
Theorem prompt_embeds_context_and_question request p answer :
  let out := chat_endpoint request p in
  let emb := chroma_embedding_function (vector_store p) in
  out.1 = Returned answer ->
  exists results w1 prompt_text,
    similarity_search (outside p) emb (collection (vector_store p)) (question request) 3
    = (Returned results, w1)
    /\ calls out.2 =
         calls p ++
         [ CallSimilaritySearch emb (question request) 3; CallInvoke llm prompt_text ]
    /\ source_docs answer = map metadata results
    /\ occurs (question request) prompt_text
    /\ (forall d, In d results -> occurs (page_content d) prompt_text).
Proof.
  cbv zeta. rewrite chat_endpoint_unfold. cbv zeta.
  destruct (similarity_search _ _ _ _ _) as [[results|e] w1]; [|discriminate].
  destruct (llm_invoke _ _ _) as [[reply|e] w2]; [|discriminate].
  simpl. intros [= <-]. exists results, w1. eexists.
  split; [reflexivity|]. split; [by rewrite <- app_assoc|]. split; [reflexivity|].
  destruct prompt_for_shape as (before & between & after & Hshape).
  rewrite Hshape. split.
  - exists (before ++ join (LF ++ LF) (map page_content results) ++ between)%string, after.
    by rewrite !string_app_assoc.
  - intros d Hd. apply occurs_inside, join_occurs, in_map, Hd.
Qed.

End CallProperties.

(** X5. The path an upload is written at determines the client's file
    name: [os.path.join(UPLOAD_DIR, name)] is the name itself when it
    begins with a slash and [uploaded_files/<name>] otherwise, and two
    names give the same path string only if they are the same name. *)
Theorem upload_path_determines_name a b :
  (os_path_join UPLOAD_DIR a = os_path_join UPLOAD_DIR b -> a = b)
  /\ (startswith a "/" = true -> os_path_join UPLOAD_DIR a = a)
  /\ (startswith a "/" = false ->
      os_path_join UPLOAD_DIR a = ("uploaded_files/" ++ a)%string).
Proof.
  split; [apply upload_path_injective|].
  split; [apply upload_path_absolute | apply upload_path_relative].
Qed.

Lemma upload_reaches_store_only_supported_witness :
  let p := Demo.started Demo.fair in
  let out := upload_document (X := Demo.world) Demo.report_pdf p in
  exists later,
    calls out.2 = calls p
                  ++ CallOpenWrite "uploaded_files/report.pdf" (file Demo.report_pdf) :: later
    /\ out.1 = Returned (UploadSuccess 4)
    /\ (copy_to_file (outside p) "uploaded_files/report.pdf" (file Demo.report_pdf)).1
       = Saved
    /\ exists loader, In (CallLoad loader "uploaded_files/report.pdf") later.
Proof.
  cbv zeta.
  destruct (upload_reaches_store_only_supported (X := Demo.world) Demo.report_pdf
              (Demo.started Demo.fair)) as (later & Hcalls & Honly).
  exists later. split; [exact Hcalls|]. split; [reflexivity|].
  destruct (Honly (or_introl (ex_intro _ 4 eq_refl))) as (Hsaved & _ & Hload).
  by split.
Defined.

Lemma upload_writes_once_witness :
  let p := Demo.started Demo.fair in
  let out := upload_document (X := Demo.world) Demo.notes_txt p in
  (copy_to_file (outside p) "uploaded_files/notes.txt" (file Demo.notes_txt)).1 = Saved
  /\ endswith (filename Demo.notes_txt) ".pdf" = false
  /\ endswith (filename Demo.notes_txt) ".docx" = false
  /\ out.1 = Returned (UploadError "Unsupported file format")
  /\ disk out.2 !! "uploaded_files/notes.txt" = Some (file Demo.notes_txt).
Proof.
  cbv zeta. do 3 (split; [reflexivity|]).
  destruct (upload_writes_once (X := Demo.world) Demo.notes_txt (Demo.started Demo.fair))
    as (later & _ & _ & Hrejected).
  exact (proj2 (Hrejected eq_refl eq_refl eq_refl)).
Defined.

Lemma upload_path_determines_name_witness :
  os_path_join UPLOAD_DIR "report.pdf" = "uploaded_files/report.pdf"
  /\ os_path_join UPLOAD_DIR "/notes.txt" = "/notes.txt"
  /\ (os_path_join UPLOAD_DIR "report.pdf" = os_path_join UPLOAD_DIR "report.pdf" ->
      "report.pdf" = "report.pdf").
Proof.
  split; [|split].
  - exact (proj2 (proj2 (upload_path_determines_name "report.pdf" "report.pdf")) eq_refl).
  - exact (proj1 (proj2 (upload_path_determines_name "/notes.txt" "/notes.txt")) eq_refl).
  - exact (proj1 (upload_path_determines_name "report.pdf" "report.pdf")).
Defined.

Lemma prompt_embeds_context_and_question_witness :
  let p := (handle (X := Demo.world) (PostUpload Demo.report_pdf)
              (Demo.started Demo.fair)).2 in
  let out := chat_endpoint (X := Demo.world) Demo.ask p in
  (exists answer, out.1 = Returned answer)
  /\ exists prompt_text,
       In (CallInvoke llm prompt_text) (calls out.2)
       /\ occurs "What is the project name?" prompt_text
       /\ occurs "The project name is Vitalyze" prompt_text
       /\ occurs " It is an AI-powered health hub" prompt_text.
Proof.
  cbv zeta. split; [eexists; reflexivity|].
  destruct (prompt_embeds_context_and_question (X := Demo.world) Demo.ask
              (handle (X := Demo.world) (PostUpload Demo.report_pdf)
                 (Demo.started Demo.fair)).2 _ eq_refl)
    as (results & w1 & prompt_text & Hsearch & Hcalls & _ & Hq & Hchunks).
  vm_compute in Hsearch. injection Hsearch as <-.
  exists prompt_text. split.
  { rewrite Hcalls. apply in_or_app. right. right. by left. }
  split; [exact Hq|]. split.
  - exact (Hchunks _ (or_introl eq_refl)).
  - exact (Hchunks _ (or_intror (or_introl eq_refl))).
Defined.
